(** * Pyramid quality metrics of VERDICT (V_PyramidMetric.cpp)

    A shallow embedding of the pyramid metrics and of the part of
    VerdictVector.hpp they use, under exact real arithmetic: a C [double]
    that holds a number is a real, and rounding and overflow are left out.
    A division whose divisor is zero has no real value (IEEE gives NaN or
    an infinity); such a division returns [None], and the two metrics that
    divide by computed quantities return [option double].

    Overflow is outside that model.  For the one property that is about it,
    the module [IEEE] embeds the shape metric a second time, on binary64
    floating-point numbers. *)

From Stdlib Require Import Reals ZArith List Lra Lia Bool.
From Stdlib Require PrimFloat.
Import ListNotations.

Local Open Scope R_scope.

(** ** Numbers and arrays *)

Abbreviation double := R.

(** [a / b] on doubles: [None] when [b] is zero. *)
Definition fdiv (a b : double) : option double :=
  if Req_dec_T b 0 then None else Some (a / b).

(** The comparisons [a < b], [a <= b] and [a == b] on doubles. *)
Definition dlt (a b : double) : bool := if Rlt_dec a b then true else false.
Definition dle (a b : double) : bool := if Rle_dec a b then true else false.
Definition deq (a b : double) : bool := if Req_dec_T a b then true else false.

(** [a <= b] where [a] may have no real value.  IEEE: a comparison with
    NaN is false, and so is [+inf <= b].  (The code never produces -inf
    here: see [distance_undefined_is_nan] and the order of the two tests
    in v_pyramid_shape.) *)
Definition nan_le (a : option double) (b : double) : bool :=
  match a with
  | Some x => dle x b
  | None => false
  end.

Definition obind {A B : Type} (o : option A) (k : A -> option B) : option B :=
  match o with
  | Some a => k a
  | None => None
  end.

Notation "x <- e ;; k" := (obind e (fun x => k))
  (at level 61, e at next level, right associativity).

(** One row [double[3]] of a coordinate array. *)
Definition xyz := (double * double * double)%type.

Definition origin : xyz := (0, 0, 0).

(** [p[j]] for a row.  The code only uses j = 0, 1, 2. *)
Definition comp (p : xyz) (j : nat) : double :=
  match p, j with
  | (x, _, _), O => x
  | (_, y, _), S O => y
  | (_, _, z), _ => z
  end.

(** [coordinates[i][j]] for an array [double coordinates[][3]].  Reading a
    row past the end of the array is undefined in C; the model reads the
    origin there, and every statement below is about arrays that hold the
    rows that are read. *)
Definition at2 (coordinates : list xyz) (i j : nat) : double :=
  comp (nth i coordinates origin) j.

Notation "c .[ i , j ]" := (at2 c i j) (at level 1, format "c .[ i ,  j ]").

(** ** VerdictVector.hpp *)

Module VerdictVector.

Record t : Type := mk { xVal : double; yVal : double; zVal : double }.

(** VerdictVector() *)
Definition zero : t := mk 0 0 0.

(** set(xv, yv, zv) *)
Definition set (xv yv zv : double) : t := mk xv yv zv.

(** VerdictVector(const double xyz[3]), "create vector from tuple"; the
    header only declares it, and set(const double xyz[3]) shows the
    assignment. *)
Definition of_xyz (p : xyz) : t := mk (comp p 0) (comp p 1) (comp p 2).

(** operator+ *)
Definition add (v1 v2 : t) : t :=
  mk (xVal v1 + xVal v2) (yVal v1 + yVal v2) (zVal v1 + zVal v2).

(** operator- *)
Definition sub (v1 v2 : t) : t :=
  mk (xVal v1 - xVal v2) (yVal v1 - yVal v2) (zVal v1 - zVal v2).

(** operator*= (cross product), through operator* *)
Definition cross (v1 v2 : t) : t :=
  let xcross := yVal v1 * zVal v2 - zVal v1 * yVal v2 in
  let ycross := zVal v1 * xVal v2 - xVal v1 * zVal v2 in
  let zcross := xVal v1 * yVal v2 - yVal v1 * xVal v2 in
  mk xcross ycross zcross.

(** operator/= by a scalar, through operator/.  The code asserts
    [scalar != 0]; its only call site here passes the literal 4.0. *)
Definition div_scalar (v1 : t) (scalar : double) : t :=
  mk (xVal v1 / scalar) (yVal v1 / scalar) (zVal v1 / scalar).

(** Dot, operator% *)
Definition dot (v1 v2 : t) : double :=
  xVal v1 * xVal v2 + yVal v1 * yVal v2 + zVal v1 * zVal v2.

Definition length_squared (v : t) : double :=
  xVal v * xVal v + yVal v * yVal v + zVal v * zVal v.

Definition length (v : t) : double :=
  sqrt (xVal v * xVal v + yVal v * yVal v + zVal v * zVal v).

(** VerdictVector(tail, head) and set(tail, head): the vector from [tail]
    to [head]. *)
Definition of_tail_head (tail head : t) : t :=
  mk (xVal head - xVal tail) (yVal head - yVal tail) (zVal head - zVal tail).

(** get_xyz(double xyz[3]): the tuple written. *)
Definition get_xyz (this : t) : xyz := (xVal this, yVal this, zVal this).

(** x(xv), y(yv), z(zv): [this] after the assignment. *)
Definition set_x (this : t) (xv : double) : t := mk xv (yVal this) (zVal this).
Definition set_y (this : t) (yv : double) : t := mk (xVal this) yv (zVal this).
Definition set_z (this : t) (zv : double) : t := mk (xVal this) (yVal this) zv.

(** operator+= and operator-=: [this] after the assignment. *)
Definition add_assign (this vector : t) : t :=
  mk (xVal this + xVal vector) (yVal this + yVal vector) (zVal this + zVal vector).

Definition sub_assign (this vector : t) : t :=
  mk (xVal this - xVal vector) (yVal this - yVal vector) (zVal this - zVal vector).

(** operator*= by a scalar, and operator* on (vector, scalar) and on
    (scalar, vector), which copy the vector and apply it. *)
Definition mul_assign (this : t) (scalar : double) : t :=
  mk (xVal this * scalar) (yVal this * scalar) (zVal this * scalar).

Definition mul_scalar (vector1 : t) (scalar : double) : t :=
  mul_assign vector1 scalar.

Definition scalar_mul (scalar : double) (vector1 : t) : t :=
  mul_assign vector1 scalar.

(** operator/= by a scalar with its assertion: [None] when
    [assert (scalar != 0)] fails. *)
Definition div_assign (this : t) (scalar : double) : option t :=
  if deq scalar 0 then None
  else Some (mk (xVal this / scalar) (yVal this / scalar) (zVal this / scalar)).

(** operator/ on (vector, scalar). *)
Definition div (vector1 : t) (scalar : double) : option t :=
  div_assign vector1 scalar.

(** Unary operator-. *)
Definition neg (this : t) : t := mk (- xVal this) (- yVal this) (- zVal this).

(** operator~: a normalized copy.  [None] would be a failed assertion of
    operator/=. *)
Definition normalized (vec : t) : option t :=
  let mag := sqrt (xVal vec * xVal vec + yVal vec * yVal vec + zVal vec * zVal vec) in
  let temp := vec in
  if negb (deq mag 0) then div_assign temp mag else Some temp.

(** normalize(): the magnitude returned and [this] after the call. *)
Definition normalize (this : t) : double * t :=
  let mag := length this in
  if negb (deq mag 0)
  then (mag, mk (xVal this / mag) (yVal this / mag) (zVal this / mag))
  else (mag, this).

(** operator== and operator!=; the C int result 1 or 0 is a bool. *)
Definition eqb (v1 v2 : t) : bool :=
  deq (xVal v1) (xVal v2) && deq (yVal v1) (yVal v2) && deq (zVal v1) (zVal v2).

Definition neqb (v1 v2 : t) : bool :=
  negb (deq (xVal v1) (xVal v2)) || negb (deq (yVal v1) (yVal v2))
  || negb (deq (zVal v1) (zVal v2)).

(** perpendicular_z(): [this] after the call. *)
Definition perpendicular_z (this : t) : t :=
  let temp := xVal this in
  let this := set_x this (yVal this) in
  set_y this (- temp).

End VerdictVector.

Abbreviation vec := VerdictVector.t.
Infix "+v" := VerdictVector.add (at level 50, left associativity).
Infix "-v" := VerdictVector.sub (at level 50, left associativity).
Infix "*v" := VerdictVector.cross (at level 40, left associativity).
Infix "%v" := VerdictVector.dot (at level 40, left associativity).

(** [edges[k]] for a local array of vectors (default-constructed entries
    are zero vectors). *)
Definition vnth (edges : list vec) (k : nat) : vec :=
  nth k edges VerdictVector.zero.

(** ** verdict_defines.hpp *)

(** Modelled from the spec: the macros VERDICT_MIN and VERDICT_MAX of the
    header verdict_defines.hpp, which is not among the sources.  The spec
    uses them as the minimum and the maximum of two numbers ("the minimum
    of the four normalized ratios", "the single longest of the eight
    pyramid edges"); they are written as the usual conditional
    expressions. *)
Definition VERDICT_MIN (a b : double) : double :=
  if Rlt_dec a b then a else b.

Definition VERDICT_MAX (a b : double) : double :=
  if Rgt_dec a b then a else b.

(** ** V_PyramidMetric.cpp: volume *)

Definition v_pyramid_volume (num_nodes : Z) (coordinates : list xyz) : double :=
  let volume := 0 in
  if (num_nodes =? 5)%Z then
    let side1 := VerdictVector.set (coordinates.[1, 0] - coordinates.[0, 0])
                                   (coordinates.[1, 1] - coordinates.[0, 1])
                                   (coordinates.[1, 2] - coordinates.[0, 2]) in
    let side2 := VerdictVector.set (coordinates.[3, 0] - coordinates.[0, 0])
                                   (coordinates.[3, 1] - coordinates.[0, 1])
                                   (coordinates.[3, 2] - coordinates.[0, 2]) in
    let side3 := VerdictVector.set (coordinates.[4, 0] - coordinates.[0, 0])
                                   (coordinates.[4, 1] - coordinates.[0, 1])
                                   (coordinates.[4, 2] - coordinates.[0, 2]) in
    (* volume of the first tet *)
    let volume := (side3 %v (side1 *v side2)) / 6 in
    let side1 := VerdictVector.set (coordinates.[3, 0] - coordinates.[2, 0])
                                   (coordinates.[3, 1] - coordinates.[2, 1])
                                   (coordinates.[3, 2] - coordinates.[2, 2]) in
    let side2 := VerdictVector.set (coordinates.[1, 0] - coordinates.[2, 0])
                                   (coordinates.[1, 1] - coordinates.[2, 1])
                                   (coordinates.[1, 2] - coordinates.[2, 2]) in
    let side3 := VerdictVector.set (coordinates.[4, 0] - coordinates.[2, 0])
                                   (coordinates.[4, 1] - coordinates.[2, 1])
                                   (coordinates.[4, 2] - coordinates.[2, 2]) in
    (* volume of the second tet *)
    volume + (side3 %v (side1 *v side2)) / 6
  else volume.

(** ** V_PyramidMetric.cpp: decomposition builders *)

(** The three assignments that copy row [i] of [coordinates]. *)
Definition copy_row (coordinates : list xyz) (i : nat) : xyz :=
  (coordinates.[i, 0], coordinates.[i, 1], coordinates.[i, 2]).

(** Returns the arrays tet1_coords, tet2_coords, tet3_coords, tet4_coords
    that the code fills. *)
Definition v_make_pyramid_tets (coordinates : list xyz)
  : list xyz * list xyz * list xyz * list xyz :=
  let tet1_coords := [ copy_row coordinates 0; copy_row coordinates 1;
                       copy_row coordinates 2; copy_row coordinates 4 ] in
  let tet2_coords := [ copy_row coordinates 0; copy_row coordinates 2;
                       copy_row coordinates 3; copy_row coordinates 4 ] in
  let tet3_coords := [ copy_row coordinates 0; copy_row coordinates 1;
                       copy_row coordinates 3; copy_row coordinates 4 ] in
  let tet4_coords := [ copy_row coordinates 1; copy_row coordinates 2;
                       copy_row coordinates 3; copy_row coordinates 4 ] in
  (tet1_coords, tet2_coords, tet3_coords, tet4_coords).

(** Returns the arrays base, tri1, tri2, tri3, tri4 that the code fills. *)
Definition v_make_pyramid_faces (coordinates : list xyz)
  : list xyz * list xyz * list xyz * list xyz * list xyz :=
  let base := [ copy_row coordinates 0; copy_row coordinates 1;
                copy_row coordinates 2; copy_row coordinates 3 ] in
  let tri1 := [ copy_row coordinates 0; copy_row coordinates 1;
                copy_row coordinates 4 ] in
  let tri2 := [ copy_row coordinates 1; copy_row coordinates 2;
                copy_row coordinates 4 ] in
  let tri3 := [ copy_row coordinates 2; copy_row coordinates 3;
                copy_row coordinates 4 ] in
  let tri4 := [ copy_row coordinates 3; copy_row coordinates 0;
                copy_row coordinates 4 ] in
  (base, tri1, tri2, tri3, tri4).

(** Returns the array edges[0..7] that the code fills. *)
Definition v_make_pyramid_edges (coordinates : list xyz) : list vec :=
  [ VerdictVector.set (coordinates.[1, 0] - coordinates.[0, 0])
                      (coordinates.[1, 1] - coordinates.[0, 1])
                      (coordinates.[1, 2] - coordinates.[0, 2]);
    VerdictVector.set (coordinates.[2, 0] - coordinates.[1, 0])
                      (coordinates.[2, 1] - coordinates.[1, 1])
                      (coordinates.[2, 2] - coordinates.[1, 2]);
    VerdictVector.set (coordinates.[3, 0] - coordinates.[2, 0])
                      (coordinates.[3, 1] - coordinates.[2, 1])
                      (coordinates.[3, 2] - coordinates.[2, 2]);
    VerdictVector.set (coordinates.[0, 0] - coordinates.[3, 0])
                      (coordinates.[0, 1] - coordinates.[3, 1])
                      (coordinates.[0, 2] - coordinates.[3, 2]);
    VerdictVector.set (coordinates.[4, 0] - coordinates.[0, 0])
                      (coordinates.[4, 1] - coordinates.[0, 1])
                      (coordinates.[4, 2] - coordinates.[0, 2]);
    VerdictVector.set (coordinates.[4, 0] - coordinates.[1, 0])
                      (coordinates.[4, 1] - coordinates.[1, 1])
                      (coordinates.[4, 2] - coordinates.[1, 2]);
    VerdictVector.set (coordinates.[4, 0] - coordinates.[2, 0])
                      (coordinates.[4, 1] - coordinates.[2, 1])
                      (coordinates.[4, 2] - coordinates.[2, 2]);
    VerdictVector.set (coordinates.[4, 0] - coordinates.[3, 0])
                      (coordinates.[4, 1] - coordinates.[3, 1])
                      (coordinates.[4, 2] - coordinates.[3, 2]) ].

(** ** V_PyramidMetric.cpp: geometry helpers *)

Definition v_largest_pyramid_edge (coordinates : list xyz) : double :=
  let edges := v_make_pyramid_edges coordinates in
  let l0 := VerdictVector.length_squared (vnth edges 0) in
  let l1 := VerdictVector.length_squared (vnth edges 1) in
  let l2 := VerdictVector.length_squared (vnth edges 2) in
  let l3 := VerdictVector.length_squared (vnth edges 3) in
  let l4 := VerdictVector.length_squared (vnth edges 4) in
  let l5 := VerdictVector.length_squared (vnth edges 5) in
  let l6 := VerdictVector.length_squared (vnth edges 6) in
  let l7 := VerdictVector.length_squared (vnth edges 7) in
  let max := VERDICT_MIN l0 l1 in
  let max := VERDICT_MAX max l2 in
  let max := VERDICT_MAX max l3 in
  let max := VERDICT_MAX max l4 in
  let max := VERDICT_MAX max l5 in
  let max := VERDICT_MAX max l6 in
  let max := VERDICT_MAX max l7 in
  sqrt max.

(** Returns the pair (distance, cos_angle): the returned distance and the
    value written through the reference [cos_angle].  Either is [None] when
    the division that computes it has a zero divisor; NaN propagates from
    the distance to the cosine. *)
Definition v_distance_point_to_pyramid_base (num_nodes : Z) (coordinates : list xyz)
  : option double * option double :=
  let a := VerdictVector.of_xyz (nth 0 coordinates origin) in
  let b := VerdictVector.of_xyz (nth 1 coordinates origin) in
  let c := VerdictVector.of_xyz (nth 2 coordinates origin) in
  let d := VerdictVector.of_xyz (nth 3 coordinates origin) in
  let peak := VerdictVector.of_xyz (nth 4 coordinates origin) in
  let centroid := VerdictVector.div_scalar (a +v b +v c +v d) 4 in
  let t1 := b -v a in
  let t2 := d -v a in
  let normal := t1 *v t2 in
  let normal_length := VerdictVector.length normal in
  let pq := peak -v centroid in
  let distance := fdiv (pq %v normal) normal_length in
  let cos_angle := (dist <- distance ;; fdiv dist (VerdictVector.length pq)) in
  (distance, cos_angle).

(** Modelled from the spec: the result record PyramidMetricVals of the
    dispatch entry point, a struct declared in verdict.h, which is not among
    the sources.  It has "one scalar field per metric kind", and these are
    the four fields the code writes.  A field holds what a metric returned,
    so it may hold a value that is not a real. *)
Record PyramidMetricVals : Type := mkPyramidMetricVals {
  volume : option double;
  jacobian : option double;
  scaled_jacobian : option double;
  shape : option double
}.

(** memset(metric_vals, 0, sizeof(PyramidMetricVals)) *)
Definition zero_metric_vals : PyramidMetricVals :=
  mkPyramidMetricVals (Some 0) (Some 0) (Some 0) (Some 0).

(** ** Vocabulary of the specification

    These definitions follow the words of the specification, not the code;
    the theorems compare the code with them. *)

(** The length of the edge from vertex [p] to vertex [q]. *)
Definition edge_length (p q : xyz) : double :=
  VerdictVector.length (VerdictVector.of_xyz q -v VerdictVector.of_xyz p).

(** The eight edges in the order of the specification: the base edges
    0->1, 1->2, 2->3, 3->0, then the lateral edges 0->4, 1->4, 2->4, 3->4. *)
Definition pyramid_edge_lengths (v0 v1 v2 v3 v4 : xyz) : list double :=
  [ edge_length v0 v1; edge_length v1 v2; edge_length v2 v3; edge_length v3 v0;
    edge_length v0 v4; edge_length v1 v4; edge_length v2 v4; edge_length v3 v4 ].

(** The length of the longest of the eight edges. *)
Definition longest_edge_length (v0 v1 v2 v3 v4 : xyz) : double :=
  fold_right Rmax 0 (pyramid_edge_lengths v0 v1 v2 v3 v4).

(** The minimum of four numbers. *)
Definition min4 (a b c d : double) : double := Rmin a (Rmin b (Rmin c d)).

(** The scalar triple product a . (b x c). *)
Definition scalar_triple (a b c : vec) : double := a %v (b *v c).


(** The same signed volume written out in coordinates, without the vector
    operations of the code: with a, b, c the edge vectors from p0 to p1, p2
    and p3, one sixth of the determinant
    ax (by cz - bz cy) + ay (bz cx - bx cz) + az (bx cy - by cx). *)
Definition tet_volume_in_coordinates (p0 p1 p2 p3 : xyz) : double :=
  let '(x0, y0, z0) := p0 in
  let '(x1, y1, z1) := p1 in
  let '(x2, y2, z2) := p2 in
  let '(x3, y3, z3) := p3 in
  let ax := x1 - x0 in let ay := y1 - y0 in let az := z1 - z0 in
  let bx := x2 - x0 in let by_ := y2 - y0 in let bz := z2 - z0 in
  let cx := x3 - x0 in let cy := y3 - y0 in let cz := z3 - z0 in
  (ax * (by_ * cz - bz * cy) + ay * (bz * cx - bx * cz)
   + az * (bx * cy - by_ * cx)) / 6.

(** A raw corner Jacobian [j] divided by the product of three edge lengths
    scaled by sqrt 2 / 2. *)
Definition corner_ratio (j la lb lc : double) : double :=
  j / (la * lb * lc * (sqrt 2 / 2)).

(** The base normal at vertex 0, the base centroid, and the side of the
    base plane the apex is on: positive on the side of the normal, zero in
    the plane through the centroid, negative behind it. *)
Definition base_normal (v0 v1 v3 : xyz) : vec :=
  (VerdictVector.of_xyz v1 -v VerdictVector.of_xyz v0)
  *v (VerdictVector.of_xyz v3 -v VerdictVector.of_xyz v0).

Definition base_centroid (v0 v1 v2 v3 : xyz) : vec :=
  VerdictVector.div_scalar
    (VerdictVector.of_xyz v0 +v VerdictVector.of_xyz v1
     +v VerdictVector.of_xyz v2 +v VerdictVector.of_xyz v3) 4.

Definition apex_side (v0 v1 v2 v3 v4 : xyz) : double :=
  (VerdictVector.of_xyz v4 -v base_centroid v0 v1 v2 v3) %v base_normal v0 v1 v3.

(** The vertex [p] moved by [t], and scaled by [k] about the origin. *)
Definition translate (t p : xyz) : xyz :=
  (comp p 0 + comp t 0, comp p 1 + comp t 1, comp p 2 + comp t 2).

Definition scale_about_origin (k : double) (p : xyz) : xyz :=
  (k * comp p 0, k * comp p 1, k * comp p 2).

(** ** Sample inputs *)

(** The pyramid of the end-to-end scenario: unit square base, apex above
    the centre at height 1 / sqrt 2. *)
Definition scenario_pyramid : list xyz :=
  [ (0, 0, 0); (1, 0, 0); (1, 1, 0); (0, 1, 0); (/ 2, / 2, / sqrt 2) ].

(** A pyramid over a trapezoid whose longest edge is base edge 0, of
    length 4; the other edges have lengths sqrt 2, 2, sqrt 2 (base) and 3,
    3, sqrt 5, sqrt 5 (lateral). *)
Definition lopsided_pyramid : list xyz :=
  [ (0, 0, 0); (4, 0, 0); (3, 1, 0); (1, 1, 0); (2, 1, 2) ].

(** A pyramid over the unit square with the apex above vertex 0. *)
Definition corner_pyramid : list xyz :=
  [ (0, 0, 0); (1, 0, 0); (1, 1, 0); (0, 1, 0); (0, 0, 1) ].

(** The unit square with vertex 1 collapsed onto vertex 0. *)
Definition collapsed_pyramid : list xyz :=
  [ (0, 0, 0); (0, 0, 0); (1, 1, 0); (0, 1, 0); (0, 0, 1) ].

(** The unit square with the apex in the base plane, and with the apex
    below it. *)
Definition flat_pyramid : list xyz :=
  [ (0, 0, 0); (1, 0, 0); (1, 1, 0); (0, 1, 0); (/ 2, / 2, 0) ].

Definition inverted_pyramid : list xyz :=
  [ (0, 0, 0); (1, 0, 0); (1, 1, 0); (0, 1, 0); (/ 2, / 2, -1) ].

(** The same two with the apex off the centre. *)
Definition leaning_flat_pyramid : list xyz :=
  [ (0, 0, 0); (1, 0, 0); (1, 1, 0); (0, 1, 0); (2, 3, 0) ].

Definition leaning_inverted_pyramid : list xyz :=
  [ (0, 0, 0); (1, 0, 0); (1, 1, 0); (0, 1, 0); (2, 3, -1) ].

(** Sample collaborators and constants, to run the metrics on the sample
    inputs: a tetrahedron Jacobian (the triple product of the edges at the
    first vertex), a quadrilateral shape (1 unless the edges at the first
    vertex are parallel or null), bounds 10^-30 and 10^30, and one bit per
    metric. *)
Definition sample_tet_jacobian (num_nodes : Z) (coordinates : list xyz) : double :=
  scalar_triple
    (VerdictVector.of_xyz (nth 1 coordinates origin)
     -v VerdictVector.of_xyz (nth 0 coordinates origin))
    (VerdictVector.of_xyz (nth 2 coordinates origin)
     -v VerdictVector.of_xyz (nth 0 coordinates origin))
    (VerdictVector.of_xyz (nth 3 coordinates origin)
     -v VerdictVector.of_xyz (nth 0 coordinates origin)).

Definition sample_quad_shape (num_nodes : Z) (coordinates : list xyz) : double :=
  if deq (VerdictVector.length
            (base_normal (nth 0 coordinates origin) (nth 1 coordinates origin)
                         (nth 3 coordinates origin))) 0
  then 0 else 1.

Definition sample_dbl_min : double := / 10 ^ 30.
Definition sample_dbl_max : double := 10 ^ 30.
Definition sample_volume_bit : Z := 1.
Definition sample_jacobian_bit : Z := 2.
Definition sample_scaled_jacobian_bit : Z := 4.
Definition sample_shape_bit : Z := 8.

(** ** The shape metric on binary64 numbers

    The same code with a C [double] as an IEEE 754 binary64 number, the
    operations rounding, overflowing and producing NaN as the hardware
    does.  It holds the functions the shape metric runs through. *)

Module IEEE.

Import PrimFloat.
Local Open Scope float_scope.

(** One row [double[3]], and [coordinates[i][j]]. *)
Definition fxyz := (float * float * float)%type.

Definition origin : fxyz := (0, 0, 0).

Definition comp (p : fxyz) (j : nat) : float :=
  match p, j with
  | (x, _, _), O => x
  | (_, y, _), S O => y
  | (_, _, z), _ => z
  end.

Definition at2 (coordinates : list fxyz) (i j : nat) : float :=
  comp (nth i coordinates origin) j.

(** VerdictVector *)
Record vector : Type := mk { xVal : float; yVal : float; zVal : float }.

Definition zero : vector := mk 0 0 0.

Definition set (xv yv zv : float) : vector := mk xv yv zv.

Definition of_xyz (p : fxyz) : vector := mk (comp p 0) (comp p 1) (comp p 2).

Definition add (v1 v2 : vector) : vector :=
  mk (xVal v1 + xVal v2) (yVal v1 + yVal v2) (zVal v1 + zVal v2).

Definition sub (v1 v2 : vector) : vector :=
  mk (xVal v1 - xVal v2) (yVal v1 - yVal v2) (zVal v1 - zVal v2).

Definition cross (v1 v2 : vector) : vector :=
  let xcross := yVal v1 * zVal v2 - zVal v1 * yVal v2 in
  let ycross := zVal v1 * xVal v2 - xVal v1 * zVal v2 in
  let zcross := xVal v1 * yVal v2 - yVal v1 * xVal v2 in
  mk xcross ycross zcross.

Definition div_scalar (v1 : vector) (scalar : float) : vector :=
  mk (xVal v1 / scalar) (yVal v1 / scalar) (zVal v1 / scalar).

Definition dot (v1 v2 : vector) : float :=
  xVal v1 * xVal v2 + yVal v1 * yVal v2 + zVal v1 * zVal v2.

Definition length_squared (v : vector) : float :=
  xVal v * xVal v + yVal v * yVal v + zVal v * zVal v.

Definition length (v : vector) : float :=
  sqrt (xVal v * xVal v + yVal v * yVal v + zVal v * zVal v).

Definition vnth (edges : list vector) (k : nat) : vector := nth k edges zero.

(** VERDICT_MIN and VERDICT_MAX, as the conditional expressions
    [a < b ? a : b] and [a > b ? a : b]. *)
Definition VERDICT_MIN (a b : float) : float := if a <? b then a else b.

Definition VERDICT_MAX (a b : float) : float := if b <? a then a else b.

Definition copy_row (coordinates : list fxyz) (i : nat) : fxyz :=
  (at2 coordinates i 0, at2 coordinates i 1, at2 coordinates i 2).

Definition v_make_pyramid_faces (coordinates : list fxyz)
  : list fxyz * list fxyz * list fxyz * list fxyz * list fxyz :=
  let base := [ copy_row coordinates 0; copy_row coordinates 1;
                copy_row coordinates 2; copy_row coordinates 3 ] in
  let tri1 := [ copy_row coordinates 0; copy_row coordinates 1;
                copy_row coordinates 4 ] in
  let tri2 := [ copy_row coordinates 1; copy_row coordinates 2;
                copy_row coordinates 4 ] in
  let tri3 := [ copy_row coordinates 2; copy_row coordinates 3;
                copy_row coordinates 4 ] in
  let tri4 := [ copy_row coordinates 3; copy_row coordinates 0;
                copy_row coordinates 4 ] in
  (base, tri1, tri2, tri3, tri4).

(** The edge from row [i] to row [j], as each [edges[k].set(...)] builds
    it. *)
Definition edge_from_to (coordinates : list fxyz) (i j : nat) : vector :=
  set (at2 coordinates j 0 - at2 coordinates i 0)
      (at2 coordinates j 1 - at2 coordinates i 1)
      (at2 coordinates j 2 - at2 coordinates i 2).

Definition v_make_pyramid_edges (coordinates : list fxyz) : list vector :=
  [ edge_from_to coordinates 0 1; edge_from_to coordinates 1 2;
    edge_from_to coordinates 2 3; edge_from_to coordinates 3 0;
    edge_from_to coordinates 0 4; edge_from_to coordinates 1 4;
    edge_from_to coordinates 2 4; edge_from_to coordinates 3 4 ].

Definition v_largest_pyramid_edge (coordinates : list fxyz) : float :=
  let edges := v_make_pyramid_edges coordinates in
  let l0 := length_squared (vnth edges 0) in
  let l1 := length_squared (vnth edges 1) in
  let l2 := length_squared (vnth edges 2) in
  let l3 := length_squared (vnth edges 3) in
  let l4 := length_squared (vnth edges 4) in
  let l5 := length_squared (vnth edges 5) in
  let l6 := length_squared (vnth edges 6) in
  let l7 := length_squared (vnth edges 7) in
  let max := VERDICT_MIN l0 l1 in
  let max := VERDICT_MAX max l2 in
  let max := VERDICT_MAX max l3 in
  let max := VERDICT_MAX max l4 in
  let max := VERDICT_MAX max l5 in
  let max := VERDICT_MAX max l6 in
  let max := VERDICT_MAX max l7 in
  sqrt max.

(** Returns the pair (distance, cos_angle). *)
Definition v_distance_point_to_pyramid_base (num_nodes : Z)
    (coordinates : list fxyz) : float * float :=
  let a := of_xyz (nth 0 coordinates origin) in
  let b := of_xyz (nth 1 coordinates origin) in
  let c := of_xyz (nth 2 coordinates origin) in
  let d := of_xyz (nth 3 coordinates origin) in
  let peak := of_xyz (nth 4 coordinates origin) in
  let centroid := div_scalar (add (add (add a b) c) d) 4 in
  let t1 := sub b a in
  let t2 := sub d a in
  let normal := cross t1 t2 in
  let normal_length := length normal in
  let pq := sub peak centroid in
  let distance := dot pq normal / normal_length in
  let cos_angle := distance / length pq in
  (distance, cos_angle).

Definition v_pyramid_shape (v_quad_shape : Z -> list fxyz -> float)
    (num_nodes : Z) (coordinates : list fxyz) : float :=
  let SQRT2_HALVES := sqrt 2 / 2 in
  let '(base, tri1, tri2, tri3, tri4) := v_make_pyramid_faces coordinates in
  let s1 := v_quad_shape 4%Z base in
  if s1 =? 0 then 0
  else
    let '(dist_to_base, cos_angle) :=
      v_distance_point_to_pyramid_base num_nodes coordinates in
    if (dist_to_base <=? 0) || (cos_angle <=? 0) then 0
    else
      let longest_edge := v_largest_pyramid_edge coordinates * SQRT2_HALVES in
      let dist_to_base :=
        if dist_to_base <? longest_edge
        then dist_to_base / longest_edge
        else longest_edge / dist_to_base in
      let shape := s1 * cos_angle * dist_to_base in
      shape.

(** A finite number: neither NaN nor an infinity. *)
Definition finite (x : float) : bool := negb (is_nan x) && negb (is_infinity x).

(** The pyramid over a square of side 2^600 with its apex above vertex 0 at
    height 2^600; all fifteen coordinates are finite. *)
Definition huge_pyramid : list fxyz :=
  [ (0, 0, 0); (0x1p600, 0, 0); (0x1p600, 0x1p600, 0); (0, 0x1p600, 0);
    (0, 0, 0x1p600) ].

(** A quadrilateral shape that scores every base 1, the score of a
    square. *)
Definition square_quad_shape (num_nodes : Z) (coordinates : list fxyz) : float := 1.

End IEEE.

(** Unfolds the vector operations down to their components. *)
Ltac vec_unfold :=
  unfold VerdictVector.dot, VerdictVector.cross, VerdictVector.sub,
    VerdictVector.add, VerdictVector.div_scalar, VerdictVector.set,
    VerdictVector.of_xyz, VerdictVector.length, VerdictVector.length_squared;
  cbn [VerdictVector.xVal VerdictVector.yVal VerdictVector.zVal comp].

Section Metrics.

(** The collaborators v_tet_jacobian and v_quad_shape are defined in other
    files of the library and the constants in verdict.h; none of them is
    among the sources, so the metrics take them as parameters. *)
Variable v_tet_jacobian : Z -> list xyz -> double.
Variable v_quad_shape : Z -> list xyz -> double.
Variable VERDICT_DBL_MIN : double.
Variable VERDICT_DBL_MAX : double.
Variable V_PYRAMID_VOLUME : Z.
Variable V_PYRAMID_JACOBIAN : Z.
Variable V_PYRAMID_SCALED_JACOBIAN : Z.
Variable V_PYRAMID_SHAPE : Z.

Definition v_pyramid_jacobian (num_nodes : Z) (coordinates : list xyz) : double :=
  let '(tet1_coords, tet2_coords, tet3_coords, tet4_coords) :=
    v_make_pyramid_tets coordinates in
  let j1 := v_tet_jacobian 4 tet1_coords in
  let j2 := v_tet_jacobian 4 tet2_coords in
  let j3 := v_tet_jacobian 4 tet3_coords in
  let j4 := v_tet_jacobian 4 tet4_coords in
  let p1 := if dlt j1 j2 then j1 else j2 in
  let p2 := if dlt j3 j4 then j3 else j4 in
  if dlt p1 p2 then p1 else p2.

(** [None]: one of the four divisions had a zero divisor, and real
    arithmetic does not give the result. *)
Definition v_pyramid_scaled_jacobian (num_nodes : Z) (coordinates : list xyz)
  : option double :=
  let min_scaled_jac := VERDICT_DBL_MAX in
  let '(tet1_coords, tet2_coords, tet3_coords, tet4_coords) :=
    v_make_pyramid_tets coordinates in
  let j1 := v_tet_jacobian 4 tet1_coords in
  let j2 := v_tet_jacobian 4 tet2_coords in
  let j3 := v_tet_jacobian 4 tet3_coords in
  let j4 := v_tet_jacobian 4 tet4_coords in
  let edges := v_make_pyramid_edges coordinates in
  let length0 := VerdictVector.length (vnth edges 0) in
  let length1 := VerdictVector.length (vnth edges 1) in
  let length2 := VerdictVector.length (vnth edges 2) in
  let length3 := VerdictVector.length (vnth edges 3) in
  let length4 := VerdictVector.length (vnth edges 4) in
  let length5 := VerdictVector.length (vnth edges 5) in
  let length6 := VerdictVector.length (vnth edges 6) in
  let length7 := VerdictVector.length (vnth edges 7) in
  if dlt length0 VERDICT_DBL_MIN ||
     dlt length1 VERDICT_DBL_MIN ||
     dlt length2 VERDICT_DBL_MIN ||
     dlt length3 VERDICT_DBL_MIN ||
     dlt length4 VERDICT_DBL_MIN ||
     dlt length5 VERDICT_DBL_MIN ||
     dlt length6 VERDICT_DBL_MIN ||
     dlt length7 VERDICT_DBL_MIN
  then Some 0
  else
    let factor := sqrt 2 / 2 in
    scaled_jac <- fdiv j1 (length0 * length1 * length5 * factor) ;;
    let min_scaled_jac := VERDICT_MIN scaled_jac min_scaled_jac in
    scaled_jac <- fdiv j2 (length2 * length3 * length7 * factor) ;;
    let min_scaled_jac := VERDICT_MIN scaled_jac min_scaled_jac in
    scaled_jac <- fdiv j3 (length0 * length3 * length4 * factor) ;;
    let min_scaled_jac := VERDICT_MIN scaled_jac min_scaled_jac in
    scaled_jac <- fdiv j4 (length1 * length2 * length6 * factor) ;;
    let min_scaled_jac := VERDICT_MIN scaled_jac min_scaled_jac in
    Some min_scaled_jac.

(** [None]: the result is NaN or infinite.  In
    [if (dist_to_base <= 0 || cos_angle <= 0.0)] a value without a real
    counterpart compares false; past that test the distance and the cosine
    are both factors of the product, so the result is a real only if both
    are. *)
Definition v_pyramid_shape (num_nodes : Z) (coordinates : list xyz)
  : option double :=
  let SQRT2_HALVES := sqrt 2 / 2 in
  let '(base, tri1, tri2, tri3, tri4) := v_make_pyramid_faces coordinates in
  let s1 := v_quad_shape 4 base in
  if deq s1 0 then Some 0
  else
    let '(dist_to_base, cos_angle) :=
      v_distance_point_to_pyramid_base num_nodes coordinates in
    if nan_le dist_to_base 0 || nan_le cos_angle 0 then Some 0
    else
      let longest_edge := v_largest_pyramid_edge coordinates * SQRT2_HALVES in
      dist_to_base <- dist_to_base ;;
      cos_angle <- cos_angle ;;
      dist_to_base <- (if dlt dist_to_base longest_edge
                       then fdiv dist_to_base longest_edge
                       else fdiv longest_edge dist_to_base) ;;
      let shape := s1 * cos_angle * dist_to_base in
      Some shape.

(** [flag & bit] used as a condition. *)
Definition flag_set (flag bit : Z) : bool := negb (Z.land flag bit =? 0)%Z.

(** Takes the record [*metric_vals] as the caller left it and returns it
    as the call leaves it. *)
Definition v_pyramid_quality (num_nodes : Z) (coordinates : list xyz)
    (metrics_request_flag : Z) (metric_vals : PyramidMetricVals)
  : PyramidMetricVals :=
  let metric_vals := zero_metric_vals in
  if flag_set metrics_request_flag V_PYRAMID_VOLUME then
    mkPyramidMetricVals (Some (v_pyramid_volume num_nodes coordinates))
      (jacobian metric_vals) (scaled_jacobian metric_vals) (shape metric_vals)
  else if flag_set metrics_request_flag V_PYRAMID_JACOBIAN then
    mkPyramidMetricVals (volume metric_vals)
      (Some (v_pyramid_jacobian num_nodes coordinates))
      (scaled_jacobian metric_vals) (shape metric_vals)
  else if flag_set metrics_request_flag V_PYRAMID_SCALED_JACOBIAN then
    mkPyramidMetricVals (volume metric_vals) (jacobian metric_vals)
      (v_pyramid_scaled_jacobian num_nodes coordinates) (shape metric_vals)
  else if flag_set metrics_request_flag V_PYRAMID_SHAPE then
    mkPyramidMetricVals (volume metric_vals) (jacobian metric_vals)
      (scaled_jacobian metric_vals) (v_pyramid_shape num_nodes coordinates)
  else metric_vals.

(** ** Basic facts *)

Lemma copy_row_cons0 (p : xyz) (l : list xyz) : copy_row (p :: l) 0 = p.
Proof. destruct p as [[x y] z]. reflexivity. Qed.

Lemma copy_row_consS (p : xyz) (l : list xyz) (i : nat) :
  copy_row (p :: l) (S i) = copy_row l i.
Proof. reflexivity. Qed.

Lemma at2_cons0 (p : xyz) (l : list xyz) (j : nat) : (p :: l).[0, j] = comp p j.
Proof. reflexivity. Qed.

Lemma at2_consS (p : xyz) (l : list xyz) (i j : nat) :
  (p :: l).[S i, j] = l.[i, j].
Proof. reflexivity. Qed.

Lemma dlt_min (a b : double) : (if dlt a b then a else b) = Rmin a b.
Proof.
  unfold dlt, Rmin.
  destruct (Rlt_dec a b), (Rle_dec a b); lra.
Qed.

Lemma VERDICT_MIN_Rmin (a b : double) : VERDICT_MIN a b = Rmin a b.
Proof.
  unfold VERDICT_MIN, Rmin.
  destruct (Rlt_dec a b), (Rle_dec a b); lra.
Qed.

Lemma VERDICT_MAX_Rmax (a b : double) : VERDICT_MAX a b = Rmax a b.
Proof.
  unfold VERDICT_MAX, Rmax.
  destruct (Rgt_dec a b), (Rle_dec a b); lra.
Qed.

(** [min4] is a lower bound of its arguments and is one of them. *)
Lemma min4_lower (a b c d : double) :
  min4 a b c d <= a /\ min4 a b c d <= b /\ min4 a b c d <= c /\ min4 a b c d <= d.
Proof.
  unfold min4.
  pose proof (Rmin_l a (Rmin b (Rmin c d))).
  pose proof (Rmin_r a (Rmin b (Rmin c d))).
  pose proof (Rmin_l b (Rmin c d)).
  pose proof (Rmin_r b (Rmin c d)).
  pose proof (Rmin_l c d).
  pose proof (Rmin_r c d).
  repeat split; lra.
Qed.

Lemma min4_attained (a b c d : double) :
  min4 a b c d = a \/ min4 a b c d = b \/ min4 a b c d = c \/ min4 a b c d = d.
Proof.
  unfold min4, Rmin.
  repeat match goal with |- context [Rle_dec ?x ?y] => destruct (Rle_dec x y) end;
    auto.
Qed.

(** ** Volume *)

(** C6: the volume is 0 when the vertex count is not 5; for five vertices it
    is the sum of the signed volumes of the tetrahedra (v0, v1, v3, v4) and
    (v2, v3, v1, v4), each one sixth of the scalar triple product of the
    edge vectors leaving its first vertex, the product being written out in
    coordinates. *)
Theorem v_pyramid_volume_two_tets :
  (forall (num_nodes : Z) (coordinates : list xyz),
      num_nodes <> 5%Z -> v_pyramid_volume num_nodes coordinates = 0) /\
  (forall v0 v1 v2 v3 v4 : xyz,
      v_pyramid_volume 5 [v0; v1; v2; v3; v4] =
      tet_volume_in_coordinates v0 v1 v3 v4 +
      tet_volume_in_coordinates v2 v3 v1 v4).
Proof.
  split.
  - intros num_nodes coordinates Hn. unfold v_pyramid_volume.
    destruct (Z.eqb_spec num_nodes 5); [contradiction | reflexivity].
  - intros [[x0 y0] z0] [[x1 y1] z1] [[x2 y2] z2] [[x3 y3] z3] [[x4 y4] z4].
    unfold v_pyramid_volume, tet_volume_in_coordinates.
    cbn. vec_unfold. field.
Qed.

Lemma scenario_volume : v_pyramid_volume 5 scenario_pyramid = / sqrt 2 / 3.
Proof.
  unfold v_pyramid_volume, scenario_pyramid. cbn. vec_unfold.
  field. apply Rgt_not_eq, sqrt_lt_R0. lra.
Qed.

(** C4, as the code has it: on the scenario pyramid the volume is
    sqrt 2 / 6, that is (1 / sqrt 2) / 3: the base area 1 times the height
    1 / sqrt 2, over 3. *)
Theorem v_pyramid_volume_scenario :
  v_pyramid_volume 5 scenario_pyramid = sqrt 2 / 6.
Proof.
  rewrite scenario_volume.
  assert (Hs : 0 < sqrt 2) by (apply sqrt_lt_R0; lra).
  pose proof (sqrt_sqrt 2 ltac:(lra)) as H2.
  apply Rmult_eq_reg_r with (sqrt 2); [|lra].
  field_simplify; [|lra]. rewrite <- Rsqr_pow2. unfold Rsqr. rewrite H2. lra.
Qed.

(** ** Jacobian *)

(** C7: the Jacobian metric is the minimum of the tetrahedron Jacobians of
    (v0,v1,v2,v4), (v0,v2,v3,v4), (v0,v1,v3,v4) and (v1,v2,v3,v4). *)
Theorem v_pyramid_jacobian_min_of_four_tets :
  forall (num_nodes : Z) (v0 v1 v2 v3 v4 : xyz),
    v_pyramid_jacobian num_nodes [v0; v1; v2; v3; v4] =
    min4 (v_tet_jacobian 4 [v0; v1; v2; v4])
         (v_tet_jacobian 4 [v0; v2; v3; v4])
         (v_tet_jacobian 4 [v0; v1; v3; v4])
         (v_tet_jacobian 4 [v1; v2; v3; v4]).
Proof.
  intros num_nodes v0 v1 v2 v3 v4.
  unfold v_pyramid_jacobian, v_make_pyramid_tets.
  repeat rewrite ?copy_row_consS, ?copy_row_cons0.
  cbv zeta. rewrite !dlt_min. unfold min4.
  symmetry. apply Rmin_assoc.
Qed.

(** ** Scaled Jacobian *)

Lemma dlt_true (a b : double) : dlt a b = true <-> a < b.
Proof. unfold dlt. destruct (Rlt_dec a b); split; intros; (lra || discriminate || reflexivity). Qed.

Lemma dlt_false (a b : double) : dlt a b = false <-> b <= a.
Proof. unfold dlt. destruct (Rlt_dec a b); split; intros; (lra || discriminate || reflexivity). Qed.

Lemma dle_true (a b : double) : dle a b = true <-> a <= b.
Proof. unfold dle. destruct (Rle_dec a b); split; intros; (lra || discriminate || reflexivity). Qed.

Lemma dle_false (a b : double) : dle a b = false <-> b < a.
Proof. unfold dle. destruct (Rle_dec a b); split; intros; (lra || discriminate || reflexivity). Qed.

Lemma deq_true (a b : double) : deq a b = true <-> a = b.
Proof. unfold deq. destruct (Req_dec_T a b); split; intros; (lra || discriminate || reflexivity). Qed.

Lemma deq_false (a b : double) : deq a b = false <-> a <> b.
Proof.
  unfold deq. destruct (Req_dec_T a b); split; intros H; try reflexivity;
    try discriminate; try assumption. contradiction.
Qed.

Lemma fdiv_nonzero (a b : double) : b <> 0 -> fdiv a b = Some (a / b).
Proof. intros Hb. unfold fdiv. destruct (Req_dec_T b 0); [contradiction | reflexivity]. Qed.

Lemma fdiv_zero (a : double) : fdiv a 0 = None.
Proof. unfold fdiv. destruct (Req_dec_T 0 0); [reflexivity | lra]. Qed.

Lemma sqrt2_half_pos : 0 < sqrt 2 / 2.
Proof. assert (0 < sqrt 2) by (apply sqrt_lt_R0; lra). lra. Qed.

(** The lengths the code computes from its edge array are the edge lengths
    of the specification, in the same order. *)
Lemma code_edge_lengths (v0 v1 v2 v3 v4 : xyz) :
  map VerdictVector.length (v_make_pyramid_edges [v0; v1; v2; v3; v4]) =
  pyramid_edge_lengths v0 v1 v2 v3 v4.
Proof.
  destruct v0 as [[x0 y0] z0], v1 as [[x1 y1] z1], v2 as [[x2 y2] z2],
           v3 as [[x3 y3] z3], v4 as [[x4 y4] z4].
  reflexivity.
Qed.

Lemma code_edge_length (v0 v1 v2 v3 v4 : xyz) (k : nat) :
  (k < 8)%nat ->
  VerdictVector.length (vnth (v_make_pyramid_edges [v0; v1; v2; v3; v4]) k) =
  nth k (pyramid_edge_lengths v0 v1 v2 v3 v4) 0.
Proof.
  intros Hk. rewrite <- code_edge_lengths.
  do 8 (destruct k as [|k]; [reflexivity|]). lia.
Qed.

(** The running minimum of the four ratios, started at the cap [M]. *)
Lemma running_min_capped (r1 r2 r3 r4 M : double) :
  Rmin r4 (Rmin r3 (Rmin r2 (Rmin r1 M))) = Rmin (min4 r1 r2 r3 r4) M.
Proof.
  unfold min4.
  rewrite (Rmin_comm r4), (Rmin_comm r3), (Rmin_comm r2), (Rmin_comm r1).
  rewrite (Rmin_comm _ M). rewrite <- !Rmin_assoc. reflexivity.
Qed.


Lemma divisor_pos (m la lb lc : double) :
  0 < m -> m <= la -> m <= lb -> m <= lc -> 0 < la * lb * lc * (sqrt 2 / 2).
Proof.
  intros Hm Ha Hb Hc. pose proof sqrt2_half_pos.
  repeat apply Rmult_lt_0_compat; lra.
Qed.

(** The guard of the scaled Jacobian, on the edge lengths of the
    specification. *)
Lemma scaled_jacobian_unfold (num_nodes : Z) (v0 v1 v2 v3 v4 : xyz) :
  let len := fun k => nth k (pyramid_edge_lengths v0 v1 v2 v3 v4) 0 in
  v_pyramid_scaled_jacobian num_nodes [v0; v1; v2; v3; v4] =
  if dlt (len 0%nat) VERDICT_DBL_MIN || dlt (len 1%nat) VERDICT_DBL_MIN ||
     dlt (len 2%nat) VERDICT_DBL_MIN || dlt (len 3%nat) VERDICT_DBL_MIN ||
     dlt (len 4%nat) VERDICT_DBL_MIN || dlt (len 5%nat) VERDICT_DBL_MIN ||
     dlt (len 6%nat) VERDICT_DBL_MIN || dlt (len 7%nat) VERDICT_DBL_MIN
  then Some 0
  else
    s1 <- fdiv (v_tet_jacobian 4 [v0; v1; v2; v4])
               (len 0%nat * len 1%nat * len 5%nat * (sqrt 2 / 2)) ;;
    s2 <- fdiv (v_tet_jacobian 4 [v0; v2; v3; v4])
               (len 2%nat * len 3%nat * len 7%nat * (sqrt 2 / 2)) ;;
    s3 <- fdiv (v_tet_jacobian 4 [v0; v1; v3; v4])
               (len 0%nat * len 3%nat * len 4%nat * (sqrt 2 / 2)) ;;
    s4 <- fdiv (v_tet_jacobian 4 [v1; v2; v3; v4])
               (len 1%nat * len 2%nat * len 6%nat * (sqrt 2 / 2)) ;;
    Some (Rmin s4 (Rmin s3 (Rmin s2 (Rmin s1 VERDICT_DBL_MAX)))).
Proof.
  intros len. unfold v_pyramid_scaled_jacobian, v_make_pyramid_tets.
  cbv zeta.
  repeat rewrite ?copy_row_consS, ?copy_row_cons0.
  rewrite !code_edge_length by lia. fold len.
  destruct (_ || _); [reflexivity|].
  destruct (fdiv _ _) as [s1|]; [|reflexivity]. cbn [obind].
  destruct (fdiv _ _) as [s2|]; [|reflexivity]. cbn [obind].
  destruct (fdiv _ _) as [s3|]; [|reflexivity]. cbn [obind].
  destruct (fdiv _ _) as [s4|]; [|reflexivity]. cbn [obind].
  rewrite !VERDICT_MIN_Rmin. reflexivity.
Qed.

Lemma guard_fires (m : double) (ls : list double) :
  Exists (fun l => l < m) ls ->
  existsb (fun l => dlt l m) ls = true.
Proof.
  intros H. apply existsb_exists. apply Exists_exists in H.
  destruct H as [l [Hin Hl]]. exists l. split; [assumption | now apply dlt_true].
Qed.

Lemma guard_passes (m : double) (ls : list double) :
  Forall (fun l => m <= l) ls ->
  existsb (fun l => dlt l m) ls = false.
Proof.
  induction 1 as [|l ls Hl _ IH]; [reflexivity|].
  cbn. rewrite IH. apply dlt_false in Hl. rewrite Hl. reflexivity.
Qed.

Lemma guard_as_existsb (m : double) (v0 v1 v2 v3 v4 : xyz) :
  let len := fun k => nth k (pyramid_edge_lengths v0 v1 v2 v3 v4) 0 in
  dlt (len 0%nat) m || dlt (len 1%nat) m || dlt (len 2%nat) m || dlt (len 3%nat) m ||
  dlt (len 4%nat) m || dlt (len 5%nat) m || dlt (len 6%nat) m || dlt (len 7%nat) m =
  existsb (fun l => dlt l m) (pyramid_edge_lengths v0 v1 v2 v3 v4).
Proof.
  cbn. rewrite orb_false_r. rewrite <- !orb_assoc. reflexivity.
Qed.

(** C8: when one of the eight edges is shorter than VERDICT_DBL_MIN the
    scaled Jacobian is 0, and no division is performed (the result is 0
    even where a divisor would be zero). *)
Theorem v_pyramid_scaled_jacobian_short_edge :
  forall (num_nodes : Z) (v0 v1 v2 v3 v4 : xyz),
    Exists (fun l => l < VERDICT_DBL_MIN) (pyramid_edge_lengths v0 v1 v2 v3 v4) ->
    v_pyramid_scaled_jacobian num_nodes [v0; v1; v2; v3; v4] = Some 0.
Proof.
  intros num_nodes v0 v1 v2 v3 v4 H.
  rewrite scaled_jacobian_unfold. cbv zeta.
  rewrite guard_as_existsb, (guard_fires _ _ H). reflexivity.
Qed.

Lemma divisors_pos (v0 v1 v2 v3 v4 : xyz) :
  let len := fun k => nth k (pyramid_edge_lengths v0 v1 v2 v3 v4) 0 in
  0 < VERDICT_DBL_MIN ->
  Forall (fun l => VERDICT_DBL_MIN <= l) (pyramid_edge_lengths v0 v1 v2 v3 v4) ->
  0 < len 0%nat * len 1%nat * len 5%nat * (sqrt 2 / 2) /\
  0 < len 2%nat * len 3%nat * len 7%nat * (sqrt 2 / 2) /\
  0 < len 0%nat * len 3%nat * len 4%nat * (sqrt 2 / 2) /\
  0 < len 1%nat * len 2%nat * len 6%nat * (sqrt 2 / 2).
Proof.
  intros len Hmin Hall.
  assert (Hk : forall k, (k < 8)%nat -> VERDICT_DBL_MIN <= len k).
  { intros k Hk. rewrite Forall_forall in Hall. apply Hall.
    apply nth_In. exact Hk. }
  repeat split; apply (divisor_pos VERDICT_DBL_MIN); auto; apply Hk; lia.
Qed.


(** The same without the assumption on VERDICT_DBL_MAX: the minimum of
    the four corner ratios, capped at VERDICT_DBL_MAX. *)
Lemma v_pyramid_scaled_jacobian_capped :
  forall (num_nodes : Z) (v0 v1 v2 v3 v4 : xyz),
    let len := fun k => nth k (pyramid_edge_lengths v0 v1 v2 v3 v4) 0 in
    let r1 := corner_ratio (v_tet_jacobian 4 [v0; v1; v2; v4])
                           (len 0%nat) (len 1%nat) (len 5%nat) in
    let r2 := corner_ratio (v_tet_jacobian 4 [v0; v2; v3; v4])
                           (len 2%nat) (len 3%nat) (len 7%nat) in
    let r3 := corner_ratio (v_tet_jacobian 4 [v0; v1; v3; v4])
                           (len 0%nat) (len 3%nat) (len 4%nat) in
    let r4 := corner_ratio (v_tet_jacobian 4 [v1; v2; v3; v4])
                           (len 1%nat) (len 2%nat) (len 6%nat) in
    0 < VERDICT_DBL_MIN ->
    Forall (fun l => VERDICT_DBL_MIN <= l) (pyramid_edge_lengths v0 v1 v2 v3 v4) ->
    v_pyramid_scaled_jacobian num_nodes [v0; v1; v2; v3; v4] =
    Some (Rmin (min4 r1 r2 r3 r4) VERDICT_DBL_MAX).
Proof.
  intros num_nodes v0 v1 v2 v3 v4 len r1 r2 r3 r4 Hmin Hall.
  rewrite scaled_jacobian_unfold. cbv zeta.
  rewrite guard_as_existsb, (guard_passes _ _ Hall).
  destruct (divisors_pos v0 v1 v2 v3 v4 Hmin Hall) as (D1 & D2 & D3 & D4).
  fold len in D1, D2, D3, D4 |- *.
  rewrite !fdiv_nonzero by (apply Rgt_not_eq; assumption).
  cbn [obind]. f_equal.
  apply running_min_capped.
Qed.

(** C10: with a positive VERDICT_DBL_MIN, whenever the guard lets the four
    divisions run (every edge length is at least VERDICT_DBL_MIN) each of
    the four divisors is strictly positive, and no input makes the metric
    divide by zero. *)
Theorem v_pyramid_scaled_jacobian_divisors_positive :
  forall (num_nodes : Z) (v0 v1 v2 v3 v4 : xyz),
    let len := fun k => nth k (pyramid_edge_lengths v0 v1 v2 v3 v4) 0 in
    0 < VERDICT_DBL_MIN ->
    (existsb (fun l => dlt l VERDICT_DBL_MIN)
             (pyramid_edge_lengths v0 v1 v2 v3 v4) = false ->
     Forall (fun l => VERDICT_DBL_MIN <= l) (pyramid_edge_lengths v0 v1 v2 v3 v4) /\
     0 < len 0%nat * len 1%nat * len 5%nat * (sqrt 2 / 2) /\
     0 < len 2%nat * len 3%nat * len 7%nat * (sqrt 2 / 2) /\
     0 < len 0%nat * len 3%nat * len 4%nat * (sqrt 2 / 2) /\
     0 < len 1%nat * len 2%nat * len 6%nat * (sqrt 2 / 2)) /\
    v_pyramid_scaled_jacobian num_nodes [v0; v1; v2; v3; v4] <> None.
Proof.
  intros num_nodes v0 v1 v2 v3 v4 len Hmin.
  assert (Hguard : existsb (fun l => dlt l VERDICT_DBL_MIN)
                     (pyramid_edge_lengths v0 v1 v2 v3 v4) = false ->
                   Forall (fun l => VERDICT_DBL_MIN <= l)
                     (pyramid_edge_lengths v0 v1 v2 v3 v4)).
  { intros Hg. apply Forall_forall. intros l Hin.
    apply dlt_false. destruct (dlt l VERDICT_DBL_MIN) eqn:E; [|reflexivity].
    assert (Hex : existsb (fun l => dlt l VERDICT_DBL_MIN)
                    (pyramid_edge_lengths v0 v1 v2 v3 v4) = true).
    { apply existsb_exists. exists l. split; assumption. }
    rewrite Hex in Hg. discriminate. }
  split.
  - intros Hg. split; [apply Hguard, Hg|].
    apply (divisors_pos v0 v1 v2 v3 v4 Hmin (Hguard Hg)).
  - rewrite scaled_jacobian_unfold. cbv zeta. rewrite guard_as_existsb.
    destruct (existsb _ _) eqn:Hg; [discriminate|].
    destruct (divisors_pos v0 v1 v2 v3 v4 Hmin (Hguard eq_refl))
      as (D1 & D2 & D3 & D4).
    fold len in D1, D2, D3, D4 |- *.
    rewrite !fdiv_nonzero by (apply Rgt_not_eq; assumption).
    cbn [obind]. discriminate.
Qed.

(** ** Shape *)

Lemma length_nonneg (v : vec) : 0 <= VerdictVector.length v.
Proof. apply sqrt_pos. Qed.

Lemma length_zero_iff (v : vec) :
  VerdictVector.length v = 0 <-> v = VerdictVector.zero.
Proof.
  destruct v as [x y z]. unfold VerdictVector.length, VerdictVector.zero. cbn.
  split.
  - intros H. apply sqrt_eq_0 in H; [|nra].
    assert (x = 0) by nra. assert (y = 0) by nra. assert (z = 0) by nra.
    subst. reflexivity.
  - intros H. injection H as -> -> ->.
    replace (0 * 0 + 0 * 0 + 0 * 0) with 0 by ring. apply sqrt_0.
Qed.

(** A vector with a non-zero product against another is not zero. *)
Lemma dot_nonzero_l (u v : vec) : u %v v <> 0 -> u <> VerdictVector.zero.
Proof.
  intros H ->. apply H. unfold VerdictVector.dot, VerdictVector.zero. cbn. ring.
Qed.

Lemma dot_nonzero_r (u v : vec) : u %v v <> 0 -> v <> VerdictVector.zero.
Proof.
  intros H ->. apply H. unfold VerdictVector.dot, VerdictVector.zero. cbn. ring.
Qed.

(** The helper on five vertices, in the vocabulary of the specification:
    the distance is the apex side over the length of the base normal, the
    cosine is the distance over the length of the offset of the apex from
    the centroid. *)
Lemma distance_unfold (num_nodes : Z) (v0 v1 v2 v3 v4 : xyz) :
  v_distance_point_to_pyramid_base num_nodes [v0; v1; v2; v3; v4] =
  (fdiv (apex_side v0 v1 v2 v3 v4) (VerdictVector.length (base_normal v0 v1 v3)),
   dist <- fdiv (apex_side v0 v1 v2 v3 v4)
                (VerdictVector.length (base_normal v0 v1 v3)) ;;
   fdiv dist (VerdictVector.length
                (VerdictVector.of_xyz v4 -v base_centroid v0 v1 v2 v3))).
Proof. reflexivity. Qed.

(** Where the distance has no real value it is 0/0, a NaN and not an
    infinity: its numerator vanishes with the normal. *)
Lemma distance_undefined_is_nan (v0 v1 v2 v3 v4 : xyz) :
  VerdictVector.length (base_normal v0 v1 v3) = 0 ->
  apex_side v0 v1 v2 v3 v4 = 0.
Proof.
  intros H. apply length_zero_iff in H. unfold apex_side. rewrite H.
  unfold VerdictVector.dot, VerdictVector.zero. cbn. ring.
Qed.

Lemma shape_unfold (num_nodes : Z) (v0 v1 v2 v3 v4 : xyz) :
  v_pyramid_shape num_nodes [v0; v1; v2; v3; v4] =
  let s1 := v_quad_shape 4 [v0; v1; v2; v3] in
  if deq s1 0 then Some 0
  else
    let dc := v_distance_point_to_pyramid_base num_nodes [v0; v1; v2; v3; v4] in
    if nan_le (fst dc) 0 || nan_le (snd dc) 0 then Some 0
    else
      let longest_edge :=
        v_largest_pyramid_edge [v0; v1; v2; v3; v4] * (sqrt 2 / 2) in
      d <- fst dc ;;
      c <- snd dc ;;
      ratio <- (if dlt d longest_edge then fdiv d longest_edge
                else fdiv longest_edge d) ;;
      Some (s1 * c * ratio).
Proof.
  unfold v_pyramid_shape, v_make_pyramid_faces. cbv zeta.
  repeat rewrite ?copy_row_consS, ?copy_row_cons0.
  destruct (v_distance_point_to_pyramid_base _ _) as [d c]. reflexivity.
Qed.

(** C9: the shape metric is 0 when the quadrilateral shape of the base is
    0, when the distance of the apex to the base is not positive, and when
    the cosine of the apex angle is not positive; so it is 0 when the apex
    is in the base plane (the base having a normal) and when the apex is
    behind it. *)
Theorem v_pyramid_shape_zero_cases :
  forall (num_nodes : Z) (v0 v1 v2 v3 v4 : xyz),
    (v_quad_shape 4 [v0; v1; v2; v3] = 0 ->
     v_pyramid_shape num_nodes [v0; v1; v2; v3; v4] = Some 0) /\
    (forall (dist : double) (cos_angle : option double),
        v_distance_point_to_pyramid_base num_nodes [v0; v1; v2; v3; v4] =
        (Some dist, cos_angle) ->
        dist <= 0 ->
        v_pyramid_shape num_nodes [v0; v1; v2; v3; v4] = Some 0) /\
    (forall (dist : option double) (cos_angle : double),
        v_distance_point_to_pyramid_base num_nodes [v0; v1; v2; v3; v4] =
        (dist, Some cos_angle) ->
        cos_angle <= 0 ->
        v_pyramid_shape num_nodes [v0; v1; v2; v3; v4] = Some 0) /\
    (base_normal v0 v1 v3 <> VerdictVector.zero ->
     apex_side v0 v1 v2 v3 v4 = 0 ->
     v_pyramid_shape num_nodes [v0; v1; v2; v3; v4] = Some 0) /\
    (apex_side v0 v1 v2 v3 v4 < 0 ->
     v_pyramid_shape num_nodes [v0; v1; v2; v3; v4] = Some 0).
Proof.
  intros num_nodes v0 v1 v2 v3 v4.
  assert (Hdist : forall (dist : double) (cos_angle : option double),
             v_distance_point_to_pyramid_base num_nodes [v0; v1; v2; v3; v4] =
             (Some dist, cos_angle) ->
             dist <= 0 ->
             v_pyramid_shape num_nodes [v0; v1; v2; v3; v4] = Some 0).
  { intros dist cos_angle E Hd. rewrite shape_unfold. cbv zeta.
    destruct (deq _ 0); [reflexivity|]. rewrite E. cbn [fst snd nan_le].
    apply dle_true in Hd. rewrite Hd. reflexivity. }
  repeat split.
  - intros Hs. rewrite shape_unfold. cbv zeta.
    apply deq_true in Hs. rewrite Hs. reflexivity.
  - exact Hdist.
  - intros dist cos_angle E Hc. rewrite shape_unfold. cbv zeta.
    destruct (deq _ 0); [reflexivity|]. rewrite E. cbn [fst snd nan_le].
    apply dle_true in Hc. rewrite Hc. rewrite orb_true_r. reflexivity.
  - intros Hn Hside.
    assert (Hl : VerdictVector.length (base_normal v0 v1 v3) <> 0).
    { intros H. apply Hn. apply length_zero_iff, H. }
    eapply Hdist.
    + rewrite distance_unfold. rewrite (fdiv_nonzero _ _ Hl). reflexivity.
    + rewrite Hside. unfold Rdiv. rewrite Rmult_0_l. lra.
  - intros Hside.
    assert (Hn : base_normal v0 v1 v3 <> VerdictVector.zero).
    { apply (dot_nonzero_r (VerdictVector.of_xyz v4 -v base_centroid v0 v1 v2 v3)).
      fold (apex_side v0 v1 v2 v3 v4). lra. }
    assert (Hl : 0 < VerdictVector.length (base_normal v0 v1 v3)).
    { pose proof (length_nonneg (base_normal v0 v1 v3)) as H0.
      destruct H0 as [H0|H0]; [exact H0|].
      exfalso. apply Hn. apply length_zero_iff. symmetry. exact H0. }
    eapply Hdist.
    + rewrite distance_unfold. rewrite fdiv_nonzero by lra. reflexivity.
    + pose proof (Rinv_0_lt_compat _ Hl). unfold Rdiv. nra.
Qed.

Lemma length_pos (v : vec) : v <> VerdictVector.zero -> 0 < VerdictVector.length v.
Proof.
  intros Hv. destruct (length_nonneg v) as [H|H]; [exact H|].
  exfalso. apply Hv, length_zero_iff. symmetry. exact H.
Qed.

Lemma v_largest_pyramid_edge_nonneg (coordinates : list xyz) :
  0 <= v_largest_pyramid_edge coordinates.
Proof. unfold v_largest_pyramid_edge. cbv zeta. apply sqrt_pos. Qed.

Lemma div_pos (a b : double) : 0 < a -> 0 < b -> 0 < a / b.
Proof. intros Ha Hb. pose proof (Rinv_0_lt_compat _ Hb). unfold Rdiv. nra. Qed.

Lemma div_nonneg (a b : double) : 0 <= a -> 0 < b -> 0 <= a / b.
Proof. intros Ha Hb. pose proof (Rinv_0_lt_compat _ Hb). unfold Rdiv. nra. Qed.

(** C3, as the code has it: in exact arithmetic the shape metric returns a
    real number (not NaN, not an infinity) that is not negative, for every
    five vertices whose base has a quadrilateral shape that is not negative
    and, unless that shape is 0, a base normal (v1 - v0) x (v3 - v0) that is
    not the zero vector. *)
Theorem v_pyramid_shape_real_nonneg :
  forall (num_nodes : Z) (v0 v1 v2 v3 v4 : xyz),
    0 <= v_quad_shape 4 [v0; v1; v2; v3] ->
    (v_quad_shape 4 [v0; v1; v2; v3] = 0 \/
     base_normal v0 v1 v3 <> VerdictVector.zero) ->
    exists r : double,
      v_pyramid_shape num_nodes [v0; v1; v2; v3; v4] = Some r /\ 0 <= r.
Proof.
  intros num_nodes v0 v1 v2 v3 v4 Hnonneg Hdegenerate.
  rewrite shape_unfold. cbv zeta.
  destruct (deq _ 0) eqn:Es; [exists 0; split; [reflexivity | lra]|].
  apply deq_false in Es.
  pose proof Hnonneg as Hs.
  assert (Hn : base_normal v0 v1 v3 <> VerdictVector.zero).
  { destruct Hdegenerate as [H|H]; [contradiction | exact H]. }
  set (s1 := v_quad_shape 4 [v0; v1; v2; v3]) in *.
  pose proof (length_pos _ Hn) as Hl.
  rewrite distance_unfold. cbn [fst snd].
  rewrite (fdiv_nonzero (apex_side v0 v1 v2 v3 v4)) by lra.
  cbn [obind nan_le].
  set (d := apex_side v0 v1 v2 v3 v4 /
            VerdictVector.length (base_normal v0 v1 v3)) in *.
  destruct (dle d 0) eqn:Ed; [exists 0; split; [reflexivity | lra]|].
  apply dle_false in Ed.
  assert (Hside : apex_side v0 v1 v2 v3 v4 <> 0).
  { intros H. unfold d in Ed. rewrite H in Ed. unfold Rdiv in Ed.
    rewrite Rmult_0_l in Ed. lra. }
  assert (Hpq : 0 < VerdictVector.length
                      (VerdictVector.of_xyz v4 -v base_centroid v0 v1 v2 v3)).
  { apply length_pos. apply (dot_nonzero_l _ (base_normal v0 v1 v3)). exact Hside. }
  rewrite fdiv_nonzero by lra. cbn [nan_le obind].
  set (c := d / VerdictVector.length
                 (VerdictVector.of_xyz v4 -v base_centroid v0 v1 v2 v3)) in *.
  assert (Hc : 0 < c) by (apply div_pos; assumption).
  assert (Ec : dle c 0 = false) by (apply dle_false; exact Hc).
  rewrite Ec. cbn [orb].
  pose proof (v_largest_pyramid_edge_nonneg [v0; v1; v2; v3; v4]) as Hlong.
  pose proof sqrt2_half_pos as Hf.
  set (longest := v_largest_pyramid_edge [v0; v1; v2; v3; v4] * (sqrt 2 / 2)) in *.
  assert (Hlong' : 0 <= longest) by (unfold longest; nra).
  destruct (dlt d longest) eqn:El.
  - apply dlt_true in El.
    assert (Hlpos : 0 < longest) by lra.
    rewrite fdiv_nonzero by lra. cbn [obind].
    eexists. split; [reflexivity|].
    pose proof (div_pos d longest Ed Hlpos).
    apply Rmult_le_pos; [apply Rmult_le_pos|]; lra.
  - rewrite fdiv_nonzero by lra. cbn [obind].
    eexists. split; [reflexivity|].
    pose proof (div_nonneg longest d Hlong' Ed).
    apply Rmult_le_pos; [apply Rmult_le_pos|]; lra.
Qed.

(** ** Longest edge *)

Lemma fold_Rmax_is (m : double) (ls : list double) :
  0 <= m -> In m ls -> Forall (fun l => l <= m) ls -> fold_right Rmax 0 ls = m.
Proof.
  intros Hm Hin Hall.
  assert (Hle : forall l', Forall (fun l => l <= m) l' -> fold_right Rmax 0 l' <= m).
  { induction 1 as [|x l' Hx _ IH]; cbn; [exact Hm|]. apply Rmax_lub; assumption. }
  induction ls as [|x ls IH]; [contradiction|].
  inversion Hall as [|x' ls' Hx Hls]; subst. cbn.
  destruct Hin as [->|Hin].
  - apply Rmax_left. apply Hle, Hls.
  - rewrite (IH Hin Hls). apply Rmax_right, Hx.
Qed.

Lemma sqrt_of_square (x y : double) : 0 <= y -> x = y * y -> sqrt x = y.
Proof. intros Hy ->. apply sqrt_square, Hy. Qed.

Lemma sqrt_le_bound (x m : double) : 0 <= m -> x <= m * m -> sqrt x <= m.
Proof.
  intros Hm Hx. rewrite <- (sqrt_square m) by exact Hm.
  apply sqrt_le_1_alt, Hx.
Qed.

Lemma sqrt_Rmax (a b : double) : sqrt (Rmax a b) = Rmax (sqrt a) (sqrt b).
Proof.
  unfold Rmax. destruct (Rle_dec a b) as [H|H], (Rle_dec (sqrt a) (sqrt b)) as [H'|H'];
    try reflexivity.
  - exfalso. apply H'. apply sqrt_le_1_alt, H.
  - apply Rle_antisym; [exact H'|]. apply sqrt_le_1_alt. lra.
Qed.

Lemma sqrt_Rmin (a b : double) : sqrt (Rmin a b) = Rmin (sqrt a) (sqrt b).
Proof.
  unfold Rmin. destruct (Rle_dec a b) as [H|H], (Rle_dec (sqrt a) (sqrt b)) as [H'|H'];
    try reflexivity.
  - exfalso. apply H'. apply sqrt_le_1_alt, H.
  - apply Rle_antisym; [|exact H']. apply sqrt_le_1_alt. lra.
Qed.

Lemma edge_length_nonneg (p q : xyz) : 0 <= edge_length p q.
Proof. apply sqrt_pos. Qed.

(** What the helper computes on five vertices, on the edge lengths of the
    specification: base edges 0 and 1 enter through their minimum. *)
Lemma v_largest_pyramid_edge_value (v0 v1 v2 v3 v4 : xyz) :
  let len := fun k => nth k (pyramid_edge_lengths v0 v1 v2 v3 v4) 0 in
  v_largest_pyramid_edge [v0; v1; v2; v3; v4] =
  Rmax (Rmin (len 0%nat) (len 1%nat))
       (fold_right Rmax 0 [len 2%nat; len 3%nat; len 4%nat; len 5%nat;
                           len 6%nat; len 7%nat]).
Proof.
  intros len. unfold v_largest_pyramid_edge. cbv zeta.
  rewrite VERDICT_MIN_Rmin, !VERDICT_MAX_Rmax, !sqrt_Rmax, sqrt_Rmin.
  assert (Hk : forall k, (k < 8)%nat ->
             sqrt (VerdictVector.length_squared
                     (vnth (v_make_pyramid_edges [v0; v1; v2; v3; v4]) k)) = len k).
  { intros k Hk. unfold len.
    rewrite <- (code_edge_length v0 v1 v2 v3 v4 k Hk). reflexivity. }
  rewrite !Hk by lia. cbn [fold_right].
  assert (H7 : Rmax (len 7%nat) 0 = len 7%nat).
  { apply Rmax_left. unfold len, pyramid_edge_lengths. cbn [nth].
    apply edge_length_nonneg. }
  rewrite H7, !Rmax_assoc. reflexivity.
Qed.

Lemma longest_edge_length_value (v0 v1 v2 v3 v4 : xyz) :
  let len := fun k => nth k (pyramid_edge_lengths v0 v1 v2 v3 v4) 0 in
  longest_edge_length v0 v1 v2 v3 v4 =
  Rmax (Rmax (len 0%nat) (len 1%nat))
       (fold_right Rmax 0 [len 2%nat; len 3%nat; len 4%nat; len 5%nat;
                           len 6%nat; len 7%nat]).
Proof.
  intros len. unfold longest_edge_length, pyramid_edge_lengths in *.
  cbn [fold_right]. unfold len. cbn [nth]. rewrite !Rmax_assoc. reflexivity.
Qed.

(** X30: the helper never exceeds the longest edge, and it returns the
    longest edge exactly when base edges 0 and 1 are equal or neither of
    them is longer than all of the other six edges. *)
Lemma v_largest_pyramid_edge_vs_longest (v0 v1 v2 v3 v4 : xyz) :
  let len := fun k => nth k (pyramid_edge_lengths v0 v1 v2 v3 v4) 0 in
  let others := fold_right Rmax 0 [len 2%nat; len 3%nat; len 4%nat; len 5%nat;
                                   len 6%nat; len 7%nat] in
  v_largest_pyramid_edge [v0; v1; v2; v3; v4] <= longest_edge_length v0 v1 v2 v3 v4 /\
  (v_largest_pyramid_edge [v0; v1; v2; v3; v4] = longest_edge_length v0 v1 v2 v3 v4
   <-> Rmax (len 0%nat) (len 1%nat) <= others \/ len 0%nat = len 1%nat).
Proof.
  intros len others.
  rewrite v_largest_pyramid_edge_value, longest_edge_length_value.
  subst others len. cbv beta.
  generalize (nth 0 (pyramid_edge_lengths v0 v1 v2 v3 v4) 0)
             (nth 1 (pyramid_edge_lengths v0 v1 v2 v3 v4) 0)
             (fold_right Rmax 0
                [nth 2 (pyramid_edge_lengths v0 v1 v2 v3 v4) 0;
                 nth 3 (pyramid_edge_lengths v0 v1 v2 v3 v4) 0;
                 nth 4 (pyramid_edge_lengths v0 v1 v2 v3 v4) 0;
                 nth 5 (pyramid_edge_lengths v0 v1 v2 v3 v4) 0;
                 nth 6 (pyramid_edge_lengths v0 v1 v2 v3 v4) 0;
                 nth 7 (pyramid_edge_lengths v0 v1 v2 v3 v4) 0]).
  intros a b r.
  destruct (Rtotal_order a b) as [Hab|[Hab|Hab]].
  - rewrite (Rmin_left a b), (Rmax_right a b) by lra.
    unfold Rmax. destruct (Rle_dec a r), (Rle_dec b r);
      (split; [lra | split; [intros ?; left; lra | intros [?|?]; lra]]).
  - subst b. rewrite (Rmin_left a a), (Rmax_left a a) by lra.
    split; [lra | split; [intros _; right; reflexivity | reflexivity]].
  - rewrite (Rmin_right a b), (Rmax_left a b) by lra.
    unfold Rmax. destruct (Rle_dec a r), (Rle_dec b r);
      (split; [lra | split; [intros ?; left; lra | intros [?|?]; lra]]).
Qed.

(** C2, on the code: on the trapezoid pyramid, whose longest edge has
    length 4, the helper returns 3. *)
Theorem v_largest_pyramid_edge_lopsided :
  v_largest_pyramid_edge lopsided_pyramid = 3 /\
  longest_edge_length (0, 0, 0) (4, 0, 0) (3, 1, 0) (1, 1, 0) (2, 1, 2) = 4.
Proof.
  split.
  - unfold v_largest_pyramid_edge, lopsided_pyramid. cbn. vec_unfold.
    rewrite VERDICT_MIN_Rmin, !VERDICT_MAX_Rmax.
    repeat match goal with
           | |- context [Rmin ?a ?b] =>
               first [ rewrite (Rmin_left a b) by lra
                     | rewrite (Rmin_right a b) by lra ]
           | |- context [Rmax ?a ?b] =>
               first [ rewrite (Rmax_left a b) by lra
                     | rewrite (Rmax_right a b) by lra ]
           end.
    apply sqrt_of_square; lra.
  - unfold longest_edge_length. apply fold_Rmax_is; [lra| |].
    + left. unfold edge_length. vec_unfold. apply sqrt_of_square; lra.
    + unfold pyramid_edge_lengths, edge_length. vec_unfold.
      repeat (apply Forall_cons; [ apply sqrt_le_bound; lra | ]).
      apply Forall_nil.
Qed.

(** ** Dispatch *)

Lemma flag_set_true (flag bit : Z) :
  flag_set flag bit = true <-> Z.land flag bit <> 0%Z.
Proof.
  unfold flag_set. destruct (Z.eqb_spec (Z.land flag bit) 0); cbn; split;
    intros; (congruence || reflexivity).
Qed.

Lemma flag_set_false (flag bit : Z) :
  flag_set flag bit = false <-> Z.land flag bit = 0%Z.
Proof.
  unfold flag_set. destruct (Z.eqb_spec (Z.land flag bit) 0); cbn; split;
    intros; (congruence || reflexivity).
Qed.

(** C5: whatever the record held, the call leaves every field 0 except the
    field of the first flag that is set, in the order volume, Jacobian,
    scaled Jacobian, shape, which holds that metric; with the volume and
    the shape flags both set the volume is stored and the shape field is
    0. *)
Theorem v_pyramid_quality_first_match :
  forall (num_nodes : Z) (coordinates : list xyz) (flag : Z)
         (metric_vals : PyramidMetricVals),
    let result := v_pyramid_quality num_nodes coordinates flag metric_vals in
    (Z.land flag V_PYRAMID_VOLUME <> 0%Z ->
     result = mkPyramidMetricVals (Some (v_pyramid_volume num_nodes coordinates))
                                  (Some 0) (Some 0) (Some 0)) /\
    (Z.land flag V_PYRAMID_VOLUME = 0%Z ->
     Z.land flag V_PYRAMID_JACOBIAN <> 0%Z ->
     result = mkPyramidMetricVals (Some 0)
                (Some (v_pyramid_jacobian num_nodes coordinates))
                (Some 0) (Some 0)) /\
    (Z.land flag V_PYRAMID_VOLUME = 0%Z ->
     Z.land flag V_PYRAMID_JACOBIAN = 0%Z ->
     Z.land flag V_PYRAMID_SCALED_JACOBIAN <> 0%Z ->
     result = mkPyramidMetricVals (Some 0) (Some 0)
                (v_pyramid_scaled_jacobian num_nodes coordinates) (Some 0)) /\
    (Z.land flag V_PYRAMID_VOLUME = 0%Z ->
     Z.land flag V_PYRAMID_JACOBIAN = 0%Z ->
     Z.land flag V_PYRAMID_SCALED_JACOBIAN = 0%Z ->
     Z.land flag V_PYRAMID_SHAPE <> 0%Z ->
     result = mkPyramidMetricVals (Some 0) (Some 0) (Some 0)
                (v_pyramid_shape num_nodes coordinates)) /\
    (Z.land flag V_PYRAMID_VOLUME = 0%Z ->
     Z.land flag V_PYRAMID_JACOBIAN = 0%Z ->
     Z.land flag V_PYRAMID_SCALED_JACOBIAN = 0%Z ->
     Z.land flag V_PYRAMID_SHAPE = 0%Z ->
     result = mkPyramidMetricVals (Some 0) (Some 0) (Some 0) (Some 0)) /\
    (Z.land flag V_PYRAMID_VOLUME <> 0%Z ->
     Z.land flag V_PYRAMID_SHAPE <> 0%Z ->
     volume result = Some (v_pyramid_volume num_nodes coordinates) /\
     jacobian result = Some 0 /\
     scaled_jacobian result = Some 0 /\
     shape result = Some 0).
Proof.
  intros num_nodes coordinates flag metric_vals result.
  unfold result, v_pyramid_quality. cbv zeta.
  repeat split; intros;
    repeat match goal with
           | H : Z.land _ _ <> 0%Z |- _ => apply flag_set_true in H; rewrite H
           | H : Z.land _ _ = 0%Z |- _ => apply flag_set_false in H; rewrite H
           end;
    reflexivity.
Qed.

End Metrics.

(** C4: on the scenario pyramid the volume is not 1/3. *)
Lemma v_pyramid_volume_scenario_not_third :
  v_pyramid_volume 5 scenario_pyramid <> 1 / 3.
Proof.
  rewrite scenario_volume. intro H.
  assert (Hs : 0 < sqrt 2) by (apply sqrt_lt_R0; lra).
  assert (H1 : sqrt 2 = 1).
  { apply (f_equal (fun x => x * 3 * sqrt 2)) in H. field_simplify in H; lra. }
  pose proof (sqrt_sqrt 2 ltac:(lra)) as H2. rewrite H1 in H2. lra.
Qed.

(** Four vertices claimed, and five: the pyramid over the unit square with
    its apex at height 1 has volume 1/3. *)
Lemma v_pyramid_volume_two_tets_witness :
  v_pyramid_volume 4 corner_pyramid = 0 /\
  v_pyramid_volume 5 corner_pyramid = 1 / 3.
Proof.
  split.
  - apply (proj1 v_pyramid_volume_two_tets). lia.
  - eapply eq_trans.
    + exact (proj2 v_pyramid_volume_two_tets
               (0, 0, 0) (1, 0, 0) (1, 1, 0) (0, 1, 0) (0, 0, 1)).
    + unfold tet_volume_in_coordinates. lra.
Defined.

(** ** The theorems on the sample inputs *)

Lemma sample_dbl_min_pos : 0 < sample_dbl_min.
Proof. unfold sample_dbl_min. apply Rinv_0_lt_compat, pow_lt. lra. Qed.

Lemma sample_dbl_min_le_1 : sample_dbl_min <= 1.
Proof.
  unfold sample_dbl_min. apply Rle_trans with (/ 1).
  - apply Rinv_le_contravar; [lra|]. apply pow_R1_Rle. lra.
  - rewrite Rinv_1. lra.
Qed.

Lemma sample_dbl_max_ge_2 : 2 <= sample_dbl_max.
Proof.
  unfold sample_dbl_max. change (10 ^ 30) with (10 * 10 ^ 29).
  assert (1 <= 10 ^ 29) by (apply pow_R1_Rle; lra). lra.
Qed.

Lemma sqrt_ge_1 (x : double) : 1 <= x -> 1 <= sqrt x.
Proof. intros Hx. rewrite <- sqrt_1 at 1. apply sqrt_le_1_alt, Hx. Qed.

Lemma corner_pyramid_edges_long :
  Forall (fun l => sample_dbl_min <= l)
         (pyramid_edge_lengths (0, 0, 0) (1, 0, 0) (1, 1, 0) (0, 1, 0) (0, 0, 1)).
Proof.
  pose proof sample_dbl_min_le_1 as Hm.
  unfold pyramid_edge_lengths, edge_length. vec_unfold.
  repeat (apply Forall_cons;
          [ apply Rle_trans with (1 := Hm); apply sqrt_ge_1; lra | ]).
  apply Forall_nil.
Qed.



(** The collapsed pyramid has a base edge of length 0. *)
Lemma v_pyramid_scaled_jacobian_short_edge_witness :
  v_pyramid_scaled_jacobian sample_tet_jacobian sample_dbl_min sample_dbl_max
    5 collapsed_pyramid = Some 0.
Proof.
  apply (v_pyramid_scaled_jacobian_short_edge
           sample_tet_jacobian sample_dbl_min sample_dbl_max 5
           (0, 0, 0) (0, 0, 0) (1, 1, 0) (0, 1, 0) (0, 0, 1)).
  apply Exists_cons_hd. unfold edge_length. vec_unfold.
  rewrite (sqrt_of_square _ 0) by lra. exact sample_dbl_min_pos.
Defined.

(** With the bound 10^-30: a positive divisor on the corner pyramid, and
    no division by zero on it nor on the collapsed pyramid. *)
Lemma v_pyramid_scaled_jacobian_divisors_positive_witness :
  (let len := fun k =>
     nth k (pyramid_edge_lengths (0, 0, 0) (1, 0, 0) (1, 1, 0) (0, 1, 0) (0, 0, 1)) 0 in
   0 < len 0%nat * len 1%nat * len 5%nat * (sqrt 2 / 2)) /\
  v_pyramid_scaled_jacobian sample_tet_jacobian sample_dbl_min sample_dbl_max
    5 corner_pyramid <> None /\
  v_pyramid_scaled_jacobian sample_tet_jacobian sample_dbl_min sample_dbl_max
    5 collapsed_pyramid <> None.
Proof.
  split; [|split].
  - apply (proj1 (v_pyramid_scaled_jacobian_divisors_positive
                    sample_tet_jacobian sample_dbl_min sample_dbl_max 5
                    (0, 0, 0) (1, 0, 0) (1, 1, 0) (0, 1, 0) (0, 0, 1)
                    sample_dbl_min_pos)).
    apply guard_passes. exact corner_pyramid_edges_long.
  - apply (proj2 (v_pyramid_scaled_jacobian_divisors_positive
                    sample_tet_jacobian sample_dbl_min sample_dbl_max 5
                    (0, 0, 0) (1, 0, 0) (1, 1, 0) (0, 1, 0) (0, 0, 1)
                    sample_dbl_min_pos)).
  - apply (proj2 (v_pyramid_scaled_jacobian_divisors_positive
                    sample_tet_jacobian sample_dbl_min sample_dbl_max 5
                    (0, 0, 0) (0, 0, 0) (1, 1, 0) (0, 1, 0) (0, 0, 1)
                    sample_dbl_min_pos)).
Defined.

Lemma unit_square_normal :
  base_normal (0, 0, 0) (1, 0, 0) (0, 1, 0) = VerdictVector.mk 0 0 1.
Proof. unfold base_normal. vec_unfold. f_equal; ring. Qed.

Lemma unit_square_normal_length :
  VerdictVector.length (base_normal (0, 0, 0) (1, 0, 0) (0, 1, 0)) = 1.
Proof.
  rewrite unit_square_normal. unfold VerdictVector.length. cbn.
  apply sqrt_of_square; lra.
Qed.

Lemma flat_pyramid_side :
  apex_side (0, 0, 0) (1, 0, 0) (1, 1, 0) (0, 1, 0) (/ 2, / 2, 0) = 0.
Proof.
  unfold apex_side. rewrite unit_square_normal.
  unfold base_centroid. vec_unfold. lra.
Qed.

Lemma inverted_pyramid_side :
  apex_side (0, 0, 0) (1, 0, 0) (1, 1, 0) (0, 1, 0) (/ 2, / 2, -1) = -1.
Proof.
  unfold apex_side. rewrite unit_square_normal.
  unfold base_centroid. vec_unfold. lra.
Qed.

Lemma inverted_pyramid_offset_length :
  VerdictVector.length
    (VerdictVector.of_xyz (/ 2, / 2, -1)
     -v base_centroid (0, 0, 0) (1, 0, 0) (1, 1, 0) (0, 1, 0)) = 1.
Proof.
  unfold base_centroid. vec_unfold. apply sqrt_of_square; lra.
Qed.

Lemma collapsed_base_shape :
  sample_quad_shape 4 [(0, 0, 0); (0, 0, 0); (1, 1, 0); (0, 1, 0)] = 0.
Proof.
  unfold sample_quad_shape. cbn [nth].
  assert (H : VerdictVector.length (base_normal (0, 0, 0) (0, 0, 0) (0, 1, 0)) = 0).
  { unfold base_normal. vec_unfold. rewrite (sqrt_of_square _ 0); lra. }
  rewrite H. unfold deq. destruct (Req_dec_T 0 0); [reflexivity | lra].
Qed.

Lemma flat_pyramid_offset_length :
  VerdictVector.length
    (VerdictVector.of_xyz (/ 2, / 2, 0)
     -v base_centroid (0, 0, 0) (1, 0, 0) (1, 1, 0) (0, 1, 0)) = 0.
Proof.
  unfold base_centroid. vec_unfold. apply sqrt_of_square; lra.
Qed.

Lemma flat_pyramid_distance :
  v_distance_point_to_pyramid_base 5 flat_pyramid = (Some (0 / 1), None).
Proof.
  unfold flat_pyramid.
  rewrite distance_unfold, unit_square_normal_length, flat_pyramid_side.
  rewrite flat_pyramid_offset_length.
  rewrite fdiv_nonzero by lra. cbn [obind]. rewrite fdiv_zero. reflexivity.
Qed.

Lemma inverted_pyramid_distance :
  v_distance_point_to_pyramid_base 5 inverted_pyramid =
  (Some (-1 / 1), Some (-1 / 1 / 1)).
Proof.
  unfold inverted_pyramid.
  rewrite distance_unfold, unit_square_normal_length, inverted_pyramid_side.
  rewrite inverted_pyramid_offset_length.
  rewrite fdiv_nonzero by lra. cbn [obind].
  rewrite fdiv_nonzero by lra. reflexivity.
Qed.

Lemma leaning_flat_pyramid_side :
  apex_side (0, 0, 0) (1, 0, 0) (1, 1, 0) (0, 1, 0) (2, 3, 0) = 0.
Proof.
  unfold apex_side. rewrite unit_square_normal.
  unfold base_centroid. vec_unfold. lra.
Qed.

Lemma leaning_inverted_pyramid_side :
  apex_side (0, 0, 0) (1, 0, 0) (1, 1, 0) (0, 1, 0) (2, 3, -1) = -1.
Proof.
  unfold apex_side. rewrite unit_square_normal.
  unfold base_centroid. vec_unfold. lra.
Qed.

(** The five cases: a base of shape 0, a distance 0 (with a cosine that is
    NaN), a negative cosine, an apex in the base plane, an apex behind
    it. *)
Lemma v_pyramid_shape_zero_cases_witness :
  v_pyramid_shape sample_quad_shape 5 collapsed_pyramid = Some 0 /\
  v_pyramid_shape sample_quad_shape 5 flat_pyramid = Some 0 /\
  v_pyramid_shape sample_quad_shape 5 inverted_pyramid = Some 0 /\
  v_pyramid_shape sample_quad_shape 5 leaning_flat_pyramid = Some 0 /\
  v_pyramid_shape sample_quad_shape 5 leaning_inverted_pyramid = Some 0.
Proof.
  split; [|split; [|split; [|split]]].
  - apply (proj1 (v_pyramid_shape_zero_cases sample_quad_shape 5
                    (0, 0, 0) (0, 0, 0) (1, 1, 0) (0, 1, 0) (0, 0, 1))).
    exact collapsed_base_shape.
  - apply (proj1 (proj2 (v_pyramid_shape_zero_cases sample_quad_shape 5
                    (0, 0, 0) (1, 0, 0) (1, 1, 0) (0, 1, 0) (/ 2, / 2, 0)))
             (0 / 1) None).
    + exact flat_pyramid_distance.
    + lra.
  - apply (proj1 (proj2 (proj2 (v_pyramid_shape_zero_cases sample_quad_shape 5
                    (0, 0, 0) (1, 0, 0) (1, 1, 0) (0, 1, 0) (/ 2, / 2, -1))))
             (Some (-1 / 1)) (-1 / 1 / 1)).
    + exact inverted_pyramid_distance.
    + lra.
  - apply (proj1 (proj2 (proj2 (proj2
             (v_pyramid_shape_zero_cases sample_quad_shape 5
                (0, 0, 0) (1, 0, 0) (1, 1, 0) (0, 1, 0) (2, 3, 0)))))).
    + rewrite unit_square_normal. intros H. injection H as H. lra.
    + exact leaning_flat_pyramid_side.
  - apply (proj2 (proj2 (proj2 (proj2
             (v_pyramid_shape_zero_cases sample_quad_shape 5
                (0, 0, 0) (1, 0, 0) (1, 1, 0) (0, 1, 0) (2, 3, -1)))))).
    rewrite leaning_inverted_pyramid_side. lra.
Defined.

Lemma sample_quad_shape_nonneg (n : Z) (base : list xyz) :
  0 <= sample_quad_shape n base.
Proof. unfold sample_quad_shape. destruct (deq _ 0); lra. Qed.

(** The scenario pyramid, and the collapsed pyramid, whose base has the
    sample shape 0. *)
Lemma v_pyramid_shape_real_nonneg_witness :
  (exists r : double,
      v_pyramid_shape sample_quad_shape 5 scenario_pyramid = Some r /\ 0 <= r) /\
  (exists r : double,
      v_pyramid_shape sample_quad_shape 5 collapsed_pyramid = Some r /\ 0 <= r).
Proof.
  split.
  - apply (v_pyramid_shape_real_nonneg sample_quad_shape 5
             (0, 0, 0) (1, 0, 0) (1, 1, 0) (0, 1, 0) (/ 2, / 2, / sqrt 2)).
    + apply sample_quad_shape_nonneg.
    + right. rewrite unit_square_normal. intros H. injection H as H. lra.
  - apply (v_pyramid_shape_real_nonneg sample_quad_shape 5
             (0, 0, 0) (0, 0, 0) (1, 1, 0) (0, 1, 0) (0, 0, 1)).
    + apply sample_quad_shape_nonneg.
    + left. exact collapsed_base_shape.
Defined.

(** With the bits 1, 2, 4, 8 and a record that holds stale values. *)
Lemma v_pyramid_quality_first_match_witness :
  let quality :=
    v_pyramid_quality sample_tet_jacobian sample_quad_shape
      sample_dbl_min sample_dbl_max
      sample_volume_bit sample_jacobian_bit sample_scaled_jacobian_bit
      sample_shape_bit in
  let stale := mkPyramidMetricVals (Some 7) (Some 7) None (Some 7) in
  (* volume and shape requested together *)
  (volume (quality 5%Z scenario_pyramid 9%Z stale) =
   Some (v_pyramid_volume 5 scenario_pyramid) /\
   jacobian (quality 5%Z scenario_pyramid 9%Z stale) = Some 0 /\
   scaled_jacobian (quality 5%Z scenario_pyramid 9%Z stale) = Some 0 /\
   shape (quality 5%Z scenario_pyramid 9%Z stale) = Some 0) /\
  (* Jacobian and shape requested together *)
  quality 5%Z scenario_pyramid 10%Z stale =
  mkPyramidMetricVals (Some 0)
    (Some (v_pyramid_jacobian sample_tet_jacobian 5 scenario_pyramid))
    (Some 0) (Some 0) /\
  (* no recognised flag *)
  quality 5%Z scenario_pyramid 16%Z stale =
  mkPyramidMetricVals (Some 0) (Some 0) (Some 0) (Some 0).
Proof.
  intros quality stale.
  pose proof (v_pyramid_quality_first_match sample_tet_jacobian sample_quad_shape
                sample_dbl_min sample_dbl_max
                sample_volume_bit sample_jacobian_bit sample_scaled_jacobian_bit
                sample_shape_bit 5 scenario_pyramid) as H.
  split; [|split].
  - apply (proj2 (proj2 (proj2 (proj2 (proj2 (H 9%Z stale))))));
      vm_compute; discriminate.
  - apply (proj1 (proj2 (H 10%Z stale))); vm_compute;
      (reflexivity || discriminate).
  - apply (proj1 (proj2 (proj2 (proj2 (proj2 (H 16%Z stale))))));
      vm_compute; reflexivity.
Defined.

(** ** VerdictVector.hpp: algebra of the operations *)

Ltac vec_destruct :=
  repeat match goal with
         | v : vec |- _ => destruct v as [? ? ?]
         end.

Ltac vec_eq := vec_destruct; vec_unfold; cbn; f_equal; try field; try lra.

Lemma length_squared_nonneg (v : vec) : 0 <= VerdictVector.length_squared v.
Proof. destruct v as [x y z]. unfold VerdictVector.length_squared. cbn. nra. Qed.

Lemma length_sqrt_squared (v : vec) :
  VerdictVector.length v = sqrt (VerdictVector.length_squared v).
Proof. reflexivity. Qed.

Lemma length_times_length (v : vec) :
  VerdictVector.length v * VerdictVector.length v = VerdictVector.length_squared v.
Proof. rewrite length_sqrt_squared. apply sqrt_sqrt, length_squared_nonneg. Qed.

(** X1: the cross product computed by operator* is orthogonal to both of
    its operands. *)
Theorem cross_orthogonal_to_operands :
  forall v1 v2 : VerdictVector.t,
    VerdictVector.dot (VerdictVector.cross v1 v2) v1 = 0 /\
    VerdictVector.dot (VerdictVector.cross v1 v2) v2 = 0.
Proof.
  intros [x1 y1 z1] [x2 y2 z2]. unfold VerdictVector.dot, VerdictVector.cross.
  cbn. split; ring.
Qed.

(** X2: the cross product is anti-commutative, so the cross product of a
    vector with itself, or with a multiple of itself, is the zero vector. *)
Theorem cross_anticommutative :
  forall (v1 v2 : vec) (s : double),
    v1 *v v2 = VerdictVector.neg (v2 *v v1) /\
    v1 *v v1 = VerdictVector.zero /\
    v1 *v VerdictVector.mul_scalar v1 s = VerdictVector.zero.
Proof.
  intros [x1 y1 z1] [x2 y2 z2] s.
  unfold VerdictVector.cross, VerdictVector.neg, VerdictVector.zero,
    VerdictVector.mul_scalar, VerdictVector.mul_assign. cbn.
  repeat split; f_equal; ring.
Qed.

(** X3: Lagrange's identity between the cross and the dot product of two
    vectors and their squared lengths. *)
Theorem cross_dot_lagrange_identity :
  forall v1 v2 : vec,
    VerdictVector.length_squared (v1 *v v2) + (v1 %v v2) * (v1 %v v2) =
    VerdictVector.length_squared v1 * VerdictVector.length_squared v2.
Proof.
  intros [x1 y1 z1] [x2 y2 z2].
  unfold VerdictVector.length_squared, VerdictVector.cross, VerdictVector.dot.
  cbn. ring.
Qed.

Lemma lagrange (v1 v2 : vec) :
  VerdictVector.length_squared (v1 *v v2) + (v1 %v v2) * (v1 %v v2) =
  VerdictVector.length_squared v1 * VerdictVector.length_squared v2.
Proof.
  destruct v1 as [x1 y1 z1], v2 as [x2 y2 z2].
  unfold VerdictVector.length_squared, VerdictVector.cross, VerdictVector.dot.
  cbn. ring.
Qed.

Lemma length_product (v1 v2 : vec) :
  VerdictVector.length v1 * VerdictVector.length v2 =
  sqrt (VerdictVector.length_squared v1 * VerdictVector.length_squared v2).
Proof.
  rewrite sqrt_mult by apply length_squared_nonneg. reflexivity.
Qed.

Lemma dot_le_lengths (v1 v2 : vec) :
  Rabs (v1 %v v2) <= VerdictVector.length v1 * VerdictVector.length v2.
Proof.
  rewrite length_product, <- sqrt_Rsqr_abs. apply sqrt_le_1_alt.
  unfold Rsqr. pose proof (lagrange v1 v2).
  pose proof (length_squared_nonneg (v1 *v v2)). lra.
Qed.

Lemma cross_le_lengths (v1 v2 : vec) :
  VerdictVector.length (v1 *v v2) <=
  VerdictVector.length v1 * VerdictVector.length v2.
Proof.
  rewrite length_product, length_sqrt_squared. apply sqrt_le_1_alt.
  pose proof (lagrange v1 v2). nra.
Qed.

(** X4: the dot product of two vectors is bounded in absolute value by the
    product of their lengths (Cauchy-Schwarz), and so is the length of
    their cross product. *)
Theorem dot_and_cross_bounded_by_lengths :
  forall v1 v2 : vec,
    Rabs (v1 %v v2) <= VerdictVector.length v1 * VerdictVector.length v2 /\
    VerdictVector.length (v1 *v v2) <=
    VerdictVector.length v1 * VerdictVector.length v2.
Proof. intros v1 v2. split; [apply dot_le_lengths | apply cross_le_lengths]. Qed.

(** X5: comparing squared lengths is comparing lengths, as the header
    recommends for length_squared(). *)
Theorem length_squared_compares_like_length :
  forall v1 v2 : vec,
    (VerdictVector.length_squared v1 < VerdictVector.length_squared v2 <->
     VerdictVector.length v1 < VerdictVector.length v2) /\
    (VerdictVector.length_squared v1 <= VerdictVector.length_squared v2 <->
     VerdictVector.length v1 <= VerdictVector.length v2).
Proof.
  intros v1 v2.
  pose proof (length_squared_nonneg v1) as H1.
  pose proof (length_squared_nonneg v2) as H2.
  pose proof (length_times_length v1) as E1.
  pose proof (length_times_length v2) as E2.
  pose proof (length_nonneg v1) as L1.
  pose proof (length_nonneg v2) as L2.
  split; split; intros H.
  - rewrite !length_sqrt_squared. apply sqrt_lt_1_alt. lra.
  - nra.
  - rewrite !length_sqrt_squared. apply sqrt_le_1_alt. lra.
  - nra.
Qed.

Lemma vec_nonzero_length (v : vec) :
  v <> VerdictVector.zero -> VerdictVector.length v <> 0.
Proof. intros Hv H. apply Hv, length_zero_iff, H. Qed.

Lemma length_div_by_length (v : vec) :
  VerdictVector.length v <> 0 ->
  VerdictVector.length
    (VerdictVector.mk (VerdictVector.xVal v / VerdictVector.length v)
                      (VerdictVector.yVal v / VerdictVector.length v)
                      (VerdictVector.zVal v / VerdictVector.length v)) = 1.
Proof.
  intros Hm. pose proof (length_times_length v) as Hsq.
  pose proof (length_nonneg v) as Hpos.
  set (m := VerdictVector.length v) in *.
  destruct v as [x y z]. unfold VerdictVector.length_squared in Hsq. cbn in *.
  unfold VerdictVector.length at 1. cbn.
  apply sqrt_of_square; [lra|].
  replace (x / m * (x / m) + y / m * (y / m) + z / m * (z / m))
    with ((x * x + y * y + z * z) / (m * m)) by (field; exact Hm).
  rewrite <- Hsq. field. exact Hm.
Qed.

(** X6: normalize() returns the length the vector had; the vector it
    leaves, scaled by that length, is the vector before the call; a
    non-zero vector is left with length 1, and the zero vector is left
    unchanged (no division is made). *)
Theorem normalize_magnitude_and_direction :
  forall v : vec,
    fst (VerdictVector.normalize v) = VerdictVector.length v /\
    VerdictVector.mul_scalar (snd (VerdictVector.normalize v))
                             (fst (VerdictVector.normalize v)) = v /\
    (v <> VerdictVector.zero ->
     VerdictVector.length (snd (VerdictVector.normalize v)) = 1) /\
    (v = VerdictVector.zero ->
     VerdictVector.normalize v = (0, VerdictVector.zero)).
Proof.
  intros v. unfold VerdictVector.normalize.
  destruct (deq (VerdictVector.length v) 0) eqn:E; cbn [negb fst snd].
  - apply deq_true in E. repeat split.
    + apply length_zero_iff in E. subst v.
      unfold VerdictVector.mul_scalar, VerdictVector.mul_assign, VerdictVector.zero.
      cbn. f_equal; ring.
    + intros Hv. exfalso. apply Hv, length_zero_iff, E.
    + intros ->. rewrite E. reflexivity.
  - apply deq_false in E. repeat split.
    + destruct v as [x y z].
      unfold VerdictVector.mul_scalar, VerdictVector.mul_assign. cbn in *.
      f_equal; field; exact E.
    + intros _. apply length_div_by_length, E.
    + intros ->. exfalso. apply E. apply length_zero_iff. reflexivity.
Qed.

(** X7: normalize() is idempotent on the vector: a second call leaves the
    vector of the first call, and returns 1 unless the vector is zero. *)
Theorem normalize_idempotent :
  forall v : vec,
    snd (VerdictVector.normalize (snd (VerdictVector.normalize v))) =
    snd (VerdictVector.normalize v) /\
    (v <> VerdictVector.zero ->
     fst (VerdictVector.normalize (snd (VerdictVector.normalize v))) = 1).
Proof.
  intros v.
  destruct (deq (VerdictVector.length v) 0) eqn:E.
  - assert (Hn : VerdictVector.normalize v = (VerdictVector.length v, v)).
    { unfold VerdictVector.normalize. rewrite E. reflexivity. }
    rewrite Hn. cbn [snd]. rewrite Hn. cbn [snd]. split; [reflexivity|].
    intros Hv. exfalso. apply deq_true in E. apply Hv, length_zero_iff, E.
  - pose proof E as E'. apply deq_false in E'.
    pose proof (length_div_by_length v E') as H1.
    assert (Hn : VerdictVector.normalize v =
                 (VerdictVector.length v,
                  VerdictVector.mk
                    (VerdictVector.xVal v / VerdictVector.length v)
                    (VerdictVector.yVal v / VerdictVector.length v)
                    (VerdictVector.zVal v / VerdictVector.length v))).
    { unfold VerdictVector.normalize. rewrite E. reflexivity. }
    rewrite Hn. cbn [snd].
    set (u := VerdictVector.mk _ _ _) in *.
    unfold VerdictVector.normalize. rewrite H1.
    assert (E1 : deq 1 0 = false) by (apply deq_false; lra).
    rewrite E1. cbn [negb fst snd]. split; [|reflexivity].
    destruct u as [x y z]. cbn. f_equal; field.
Qed.

(** X8: operator~ never fails the assertion of operator/=, which it calls
    only with a non-zero magnitude, and its result is the vector that
    normalize() leaves. *)
Theorem normalized_never_asserts :
  forall v : vec,
    VerdictVector.normalized v = Some (snd (VerdictVector.normalize v)).
Proof.
  intros v. unfold VerdictVector.normalized, VerdictVector.normalize.
  fold (VerdictVector.length v).
  destruct (deq (VerdictVector.length v) 0) eqn:E; cbn [negb snd].
  - reflexivity.
  - unfold VerdictVector.div_assign. rewrite E. reflexivity.
Qed.

(** X9: operator/ fails its assertion exactly on the scalar 0; with any
    other scalar it undoes operator* by that scalar, and agrees with the
    division used for the centroid. *)
Theorem div_assert_and_round_trip :
  forall (v : vec) (scalar : double),
    (VerdictVector.div v scalar = None <-> scalar = 0) /\
    (scalar <> 0 ->
     VerdictVector.div (VerdictVector.mul_scalar v scalar) scalar = Some v /\
     VerdictVector.div v scalar = Some (VerdictVector.div_scalar v scalar)).
Proof.
  intros v scalar. unfold VerdictVector.div, VerdictVector.div_assign.
  destruct (deq scalar 0) eqn:E.
  - apply deq_true in E. split; [tauto | intros H; contradiction].
  - apply deq_false in E. split.
    + split; [discriminate | intros H; contradiction].
    + intros _. destruct v as [x y z].
      unfold VerdictVector.mul_scalar, VerdictVector.mul_assign,
        VerdictVector.div_scalar. cbn.
      split; [|reflexivity]. f_equal. f_equal; field; exact E.
Qed.

(** X10: operator== holds exactly for equal vectors, and operator!= is its
    negation. *)
Theorem eqb_neqb_consistent :
  forall v1 v2 : vec,
    (VerdictVector.eqb v1 v2 = true <-> v1 = v2) /\
    VerdictVector.neqb v1 v2 = negb (VerdictVector.eqb v1 v2).
Proof.
  intros [x1 y1 z1] [x2 y2 z2]. unfold VerdictVector.eqb, VerdictVector.neqb. cbn.
  split.
  - rewrite !andb_true_iff, !deq_true. split.
    + intros [[-> ->] ->]. reflexivity.
    + intros H. injection H as -> -> ->. auto.
  - destruct (deq x1 x2), (deq y1 y2), (deq z1 z2); reflexivity.
Qed.

(** X11: perpendicular_z() turns the vector a quarter turn about the z
    axis: the z component and the length are kept, the new x, y part is
    orthogonal to the old one, two calls negate x and y, and four calls
    give the vector back. *)
Theorem perpendicular_z_quarter_turn :
  forall v : vec,
    let p := VerdictVector.perpendicular_z v in
    VerdictVector.zVal p = VerdictVector.zVal v /\
    VerdictVector.length p = VerdictVector.length v /\
    VerdictVector.xVal v * VerdictVector.xVal p +
    VerdictVector.yVal v * VerdictVector.yVal p = 0 /\
    VerdictVector.perpendicular_z p =
    VerdictVector.mk (- VerdictVector.xVal v) (- VerdictVector.yVal v)
                     (VerdictVector.zVal v) /\
    VerdictVector.perpendicular_z
      (VerdictVector.perpendicular_z (VerdictVector.perpendicular_z p)) = v.
Proof.
  intros [x y z]. cbn.
  unfold VerdictVector.perpendicular_z, VerdictVector.set_x, VerdictVector.set_y,
    VerdictVector.length. cbn.
  repeat split.
  - f_equal. ring.
  - ring.
  - f_equal; ring.
Qed.

(** X12: the vector from tail to head added to the tail is the head, and
    operator-= undoes operator+=. *)
Theorem tail_head_round_trip :
  forall tail head v w : vec,
    VerdictVector.of_tail_head tail head +v tail = head /\
    VerdictVector.of_tail_head tail head = head -v tail /\
    VerdictVector.sub_assign (VerdictVector.add_assign v w) w = v /\
    VerdictVector.add_assign (VerdictVector.sub_assign v w) w = v.
Proof.
  intros [tx ty tz] [hx hy hz] [vx vy vz] [wx wy wz].
  unfold VerdictVector.of_tail_head, VerdictVector.add, VerdictVector.sub,
    VerdictVector.sub_assign, VerdictVector.add_assign. cbn.
  repeat split; f_equal; ring.
Qed.

(** X13: multiplying a vector by a scalar, on either side, multiplies its
    length by the absolute value of the scalar. *)
Theorem mul_scalar_scales_length :
  forall (v : vec) (s : double),
    VerdictVector.scalar_mul s v = VerdictVector.mul_scalar v s /\
    VerdictVector.length (VerdictVector.mul_scalar v s) =
    Rabs s * VerdictVector.length v.
Proof.
  intros [x y z] s. split; [reflexivity|].
  unfold VerdictVector.mul_scalar, VerdictVector.mul_assign, VerdictVector.length.
  cbn.
  replace (x * s * (x * s) + y * s * (y * s) + z * s * (z * s))
    with (Rsqr s * (x * x + y * y + z * z)) by (unfold Rsqr; ring).
  rewrite sqrt_mult; [| apply Rle_0_sqr | nra].
  rewrite sqrt_Rsqr_abs. reflexivity.
Qed.

(** X14: the triple product v1 % (v2 * v3) is unchanged by a cyclic shift
    of its three vectors and changes sign when two of them are swapped. *)
Theorem triple_product_symmetry :
  forall v1 v2 v3 : VerdictVector.t,
    VerdictVector.dot v1 (VerdictVector.cross v2 v3) =
    VerdictVector.dot v2 (VerdictVector.cross v3 v1) /\
    VerdictVector.dot v1 (VerdictVector.cross v2 v3) =
    VerdictVector.dot v3 (VerdictVector.cross v1 v2) /\
    VerdictVector.dot v1 (VerdictVector.cross v3 v2) =
    - VerdictVector.dot v1 (VerdictVector.cross v2 v3).
Proof.
  intros [x1 y1 z1] [x2 y2 z2] [x3 y3 z3].
  unfold VerdictVector.dot, VerdictVector.cross. cbn. repeat split; ring.
Qed.

(** ** V_PyramidMetric.cpp: edges and volume *)

(** X15: in the edge array the four base edges close up (their sum is the
    zero vector) and every base edge is the difference of the lateral edges
    at its two ends, whatever the coordinates. *)
Theorem v_make_pyramid_edges_closed :
  forall coordinates : list xyz,
    let e := vnth (v_make_pyramid_edges coordinates) in
    e 0%nat +v e 1%nat +v e 2%nat +v e 3%nat = VerdictVector.zero /\
    e 0%nat = e 4%nat -v e 5%nat /\
    e 1%nat = e 5%nat -v e 6%nat /\
    e 2%nat = e 6%nat -v e 7%nat /\
    e 3%nat = e 7%nat -v e 4%nat.
Proof.
  intros coordinates e. unfold e, vnth, v_make_pyramid_edges. cbn [nth].
  unfold VerdictVector.zero. vec_unfold.
  repeat split; f_equal; ring.
Qed.

(** X16: the volume does not change when the five vertices are moved by
    the same vector. *)
Theorem v_pyramid_volume_translation :
  forall (num_nodes : Z) (t v0 v1 v2 v3 v4 : xyz),
    v_pyramid_volume num_nodes
      [translate t v0; translate t v1; translate t v2; translate t v3;
       translate t v4] =
    v_pyramid_volume num_nodes [v0; v1; v2; v3; v4].
Proof.
  intros num_nodes [[tx ty] tz] [[x0 y0] z0] [[x1 y1] z1] [[x2 y2] z2]
         [[x3 y3] z3] [[x4 y4] z4].
  unfold v_pyramid_volume. destruct (num_nodes =? 5)%Z; [|reflexivity].
  cbn. vec_unfold. field.
Qed.

(** X17: reversing the winding of the base (exchanging vertices 1 and 3)
    changes the sign of the volume. *)
Theorem v_pyramid_volume_winding :
  forall (num_nodes : Z) (v0 v1 v2 v3 v4 : xyz),
    v_pyramid_volume num_nodes [v0; v3; v2; v1; v4] =
    - v_pyramid_volume num_nodes [v0; v1; v2; v3; v4].
Proof.
  intros num_nodes [[x0 y0] z0] [[x1 y1] z1] [[x2 y2] z2] [[x3 y3] z3]
         [[x4 y4] z4].
  unfold v_pyramid_volume. destruct (num_nodes =? 5)%Z; [|ring].
  cbn. vec_unfold. field.
Qed.

(** X18: scaling the five vertices by k about the origin multiplies the
    volume by k^3. *)
Theorem v_pyramid_volume_scaling :
  forall (num_nodes : Z) (k : double) (v0 v1 v2 v3 v4 : xyz),
    v_pyramid_volume num_nodes
      [scale_about_origin k v0; scale_about_origin k v1; scale_about_origin k v2;
       scale_about_origin k v3; scale_about_origin k v4] =
    k * k * k * v_pyramid_volume num_nodes [v0; v1; v2; v3; v4].
Proof.
  intros num_nodes k [[x0 y0] z0] [[x1 y1] z1] [[x2 y2] z2] [[x3 y3] z3]
         [[x4 y4] z4].
  unfold v_pyramid_volume. destruct (num_nodes =? 5)%Z; [|ring].
  cbn. vec_unfold. field.
Qed.


(** ** V_PyramidMetric.cpp: distance of the apex to the base *)

Lemma fdiv_some (a b r : double) : fdiv a b = Some r -> b <> 0 /\ r = a / b.
Proof.
  unfold fdiv. destruct (Req_dec_T b 0); [discriminate|].
  intros H. injection H as <-. split; [assumption | reflexivity].
Qed.

Lemma fdiv_none (a b : double) : fdiv a b = None <-> b = 0.
Proof.
  unfold fdiv. destruct (Req_dec_T b 0); split; intros; (assumption || reflexivity
    || discriminate || contradiction).
Qed.

Lemma fdiv_opp (a b : double) : fdiv (- a) b = option_map Ropp (fdiv a b).
Proof.
  unfold fdiv. destruct (Req_dec_T b 0); [reflexivity|].
  cbn. f_equal. field. assumption.
Qed.

Lemma abs_div_le (a b m : double) : 0 < b -> Rabs a <= m * b -> Rabs (a / b) <= m.
Proof.
  intros Hb H. unfold Rdiv. rewrite Rabs_mult, (Rabs_pos_eq (/ b)).
  - apply Rmult_le_reg_r with b; [exact Hb|].
    rewrite Rmult_assoc, Rinv_l by lra. lra.
  - apply Rlt_le, Rinv_0_lt_compat, Hb.
Qed.

(** The offset of the apex from the base centroid. *)
Lemma apex_side_le (v0 v1 v2 v3 v4 : xyz) :
  Rabs (apex_side v0 v1 v2 v3 v4) <=
  VerdictVector.length (VerdictVector.of_xyz v4 -v base_centroid v0 v1 v2 v3) *
  VerdictVector.length (base_normal v0 v1 v3).
Proof. unfold apex_side. apply dot_le_lengths. Qed.

Lemma base_normal_reversed (v0 v1 v3 : xyz) :
  base_normal v0 v3 v1 = VerdictVector.neg (base_normal v0 v1 v3).
Proof.
  destruct v0 as [[x0 y0] z0], v1 as [[x1 y1] z1], v3 as [[x3 y3] z3].
  unfold base_normal, VerdictVector.neg. vec_unfold. f_equal; ring.
Qed.

Lemma length_neg (v : vec) :
  VerdictVector.length (VerdictVector.neg v) = VerdictVector.length v.
Proof.
  destruct v as [x y z]. unfold VerdictVector.length, VerdictVector.neg. cbn.
  f_equal. ring.
Qed.

Lemma base_centroid_reversed (v0 v1 v2 v3 : xyz) :
  base_centroid v0 v3 v2 v1 = base_centroid v0 v1 v2 v3.
Proof.
  destruct v0 as [[x0 y0] z0], v1 as [[x1 y1] z1], v2 as [[x2 y2] z2],
           v3 as [[x3 y3] z3].
  unfold base_centroid. vec_unfold. f_equal; field.
Qed.

Lemma apex_side_reversed (v0 v1 v2 v3 v4 : xyz) :
  apex_side v0 v3 v2 v1 v4 = - apex_side v0 v1 v2 v3 v4.
Proof.
  unfold apex_side. rewrite base_normal_reversed, base_centroid_reversed.
  generalize (VerdictVector.of_xyz v4 -v base_centroid v0 v1 v2 v3).
  generalize (base_normal v0 v1 v3). intros [a b c] [x y z].
  unfold VerdictVector.dot, VerdictVector.neg. cbn. ring.
Qed.

Lemma distance_bounds (num_nodes : Z) (v0 v1 v2 v3 v4 : xyz) (dist : double) :
  fst (v_distance_point_to_pyramid_base num_nodes [v0; v1; v2; v3; v4]) = Some dist ->
  Rabs dist <=
  VerdictVector.length (VerdictVector.of_xyz v4 -v base_centroid v0 v1 v2 v3) /\
  (forall cos_angle : double,
      snd (v_distance_point_to_pyramid_base num_nodes [v0; v1; v2; v3; v4]) =
      Some cos_angle ->
      Rabs cos_angle <= 1).
Proof.
  rewrite distance_unfold. cbn [fst snd]. intros Hd.
  rewrite Hd. cbn [obind].
  apply fdiv_some in Hd. destruct Hd as [Hn ->].
  assert (Hnpos : 0 < VerdictVector.length (base_normal v0 v1 v3)).
  { pose proof (length_nonneg (base_normal v0 v1 v3)). lra. }
  assert (Hb : Rabs (apex_side v0 v1 v2 v3 v4 /
                     VerdictVector.length (base_normal v0 v1 v3)) <=
               VerdictVector.length
                 (VerdictVector.of_xyz v4 -v base_centroid v0 v1 v2 v3)).
  { apply abs_div_le; [exact Hnpos | apply apex_side_le]. }
  split; [exact Hb|].
  intros c Hc. apply fdiv_some in Hc. destruct Hc as [Hp ->].
  apply abs_div_le.
  - pose proof (length_nonneg
                  (VerdictVector.of_xyz v4 -v base_centroid v0 v1 v2 v3)). lra.
  - lra.
Qed.

(** X21: a distance the helper returns is at most the length of the offset
    of the apex from the base centroid, in absolute value, and a cosine it
    writes lies between -1 and 1. *)
Theorem v_distance_and_cosine_bounded :
  forall (num_nodes : Z) (v0 v1 v2 v3 v4 : xyz) (dist : double),
    fst (v_distance_point_to_pyramid_base num_nodes [v0; v1; v2; v3; v4]) =
    Some dist ->
    Rabs dist <=
    VerdictVector.length (VerdictVector.of_xyz v4 -v base_centroid v0 v1 v2 v3) /\
    (forall cos_angle : double,
        snd (v_distance_point_to_pyramid_base num_nodes [v0; v1; v2; v3; v4]) =
        Some cos_angle ->
        -1 <= cos_angle <= 1).
Proof.
  intros num_nodes v0 v1 v2 v3 v4 dist Hd.
  destruct (distance_bounds num_nodes v0 v1 v2 v3 v4 dist Hd) as [H1 H2].
  split; [exact H1|]. intros c Hc. specialize (H2 c Hc).
  unfold Rabs in H2. destruct (Rcase_abs c); lra.
Qed.

(** The inverted pyramid: distance -1, cosine -1. *)
Lemma v_distance_and_cosine_bounded_witness :
  Rabs (-1 / 1) <=
  VerdictVector.length
    (VerdictVector.of_xyz (/ 2, / 2, -1)
     -v base_centroid (0, 0, 0) (1, 0, 0) (1, 1, 0) (0, 1, 0)) /\
  -1 <= -1 / 1 / 1 <= 1.
Proof.
  assert (Hd : fst (v_distance_point_to_pyramid_base 5
                      [(0, 0, 0); (1, 0, 0); (1, 1, 0); (0, 1, 0); (/ 2, / 2, -1)]) =
               Some (-1 / 1)).
  { exact (f_equal fst inverted_pyramid_distance). }
  destruct (v_distance_and_cosine_bounded 5
              (0, 0, 0) (1, 0, 0) (1, 1, 0) (0, 1, 0) (/ 2, / 2, -1) (-1 / 1) Hd)
    as [H1 H2].
  split; [exact H1|]. apply H2.
  exact (f_equal snd inverted_pyramid_distance).
Defined.

(** X22: reversing the winding of the base (exchanging vertices 1 and 3)
    negates the distance and the cosine. *)
Theorem v_distance_winding :
  forall (num_nodes : Z) (v0 v1 v2 v3 v4 : xyz),
    v_distance_point_to_pyramid_base num_nodes [v0; v3; v2; v1; v4] =
    (option_map Ropp
       (fst (v_distance_point_to_pyramid_base num_nodes [v0; v1; v2; v3; v4])),
     option_map Ropp
       (snd (v_distance_point_to_pyramid_base num_nodes [v0; v1; v2; v3; v4]))).
Proof.
  intros num_nodes v0 v1 v2 v3 v4. rewrite !distance_unfold. cbn [fst snd].
  rewrite apex_side_reversed, base_normal_reversed, length_neg,
    base_centroid_reversed, fdiv_opp.
  destruct (fdiv (apex_side v0 v1 v2 v3 v4) _) as [d|]; cbn; [|reflexivity].
  rewrite fdiv_opp. reflexivity.
Qed.

(** X23: the distance and the cosine do not change when the five vertices
    are moved by the same vector. *)
Theorem v_distance_translation :
  forall (num_nodes : Z) (t v0 v1 v2 v3 v4 : xyz),
    v_distance_point_to_pyramid_base num_nodes
      [translate t v0; translate t v1; translate t v2; translate t v3;
       translate t v4] =
    v_distance_point_to_pyramid_base num_nodes [v0; v1; v2; v3; v4].
Proof.
  intros num_nodes [[tx ty] tz] [[x0 y0] z0] [[x1 y1] z1] [[x2 y2] z2]
         [[x3 y3] z3] [[x4 y4] z4].
  rewrite !distance_unfold.
  assert (Hn : base_normal (translate (tx, ty, tz) (x0, y0, z0))
                           (translate (tx, ty, tz) (x1, y1, z1))
                           (translate (tx, ty, tz) (x3, y3, z3)) =
               base_normal (x0, y0, z0) (x1, y1, z1) (x3, y3, z3)).
  { unfold base_normal, translate. vec_unfold. f_equal; ring. }
  assert (Hp : VerdictVector.of_xyz (translate (tx, ty, tz) (x4, y4, z4))
               -v base_centroid (translate (tx, ty, tz) (x0, y0, z0))
                                (translate (tx, ty, tz) (x1, y1, z1))
                                (translate (tx, ty, tz) (x2, y2, z2))
                                (translate (tx, ty, tz) (x3, y3, z3)) =
               VerdictVector.of_xyz (x4, y4, z4)
               -v base_centroid (x0, y0, z0) (x1, y1, z1) (x2, y2, z2) (x3, y3, z3)).
  { unfold base_centroid, translate. vec_unfold. f_equal; field. }
  unfold apex_side. rewrite Hn, Hp. reflexivity.
Qed.

(** ** V_PyramidMetric.cpp: shape *)

Lemma edge_3_pos (v0 v1 v3 : xyz) :
  base_normal v0 v1 v3 <> VerdictVector.zero -> 0 < edge_length v3 v0.
Proof.
  intros Hn. unfold edge_length. apply length_pos. intros H. apply Hn.
  destruct v0 as [[x0 y0] z0], v1 as [[x1 y1] z1], v3 as [[x3 y3] z3].
  unfold base_normal, VerdictVector.zero in *. revert H. vec_unfold.
  intros H. injection H as Hx Hy Hz.
  assert (x3 = x0) by lra. assert (y3 = y0) by lra. assert (z3 = z0) by lra.
  subst. f_equal; ring.
Qed.

Lemma largest_edge_pos (v0 v1 v2 v3 v4 : xyz) :
  base_normal v0 v1 v3 <> VerdictVector.zero ->
  0 < v_largest_pyramid_edge [v0; v1; v2; v3; v4].
Proof.
  intros Hn. pose proof (edge_3_pos v0 v1 v3 Hn) as H3.
  rewrite v_largest_pyramid_edge_value. cbv zeta.
  unfold pyramid_edge_lengths. cbn [nth fold_right].
  eapply Rlt_le_trans; [exact H3|].
  eapply Rle_trans; [|apply Rmax_r].
  eapply Rle_trans; [|apply Rmax_r].
  apply Rmax_l.
Qed.

Lemma shape_base_zero (v_quad_shape : Z -> list xyz -> double)
    (num_nodes : Z) (v0 v1 v2 v3 v4 : xyz) :
  v_quad_shape 4%Z [v0; v1; v2; v3] = 0 ->
  v_pyramid_shape v_quad_shape num_nodes [v0; v1; v2; v3; v4] = Some 0.
Proof.
  intros Hs. rewrite shape_unfold. cbv zeta.
  apply deq_true in Hs. rewrite Hs. reflexivity.
Qed.

Lemma shape_no_normal (v_quad_shape : Z -> list xyz -> double)
    (num_nodes : Z) (v0 v1 v2 v3 v4 : xyz) :
  v_quad_shape 4%Z [v0; v1; v2; v3] <> 0 ->
  base_normal v0 v1 v3 = VerdictVector.zero ->
  v_pyramid_shape v_quad_shape num_nodes [v0; v1; v2; v3; v4] = None.
Proof.
  intros Hs Hn. rewrite shape_unfold. cbv zeta.
  apply deq_false in Hs. rewrite Hs.
  rewrite distance_unfold. cbn [fst snd].
  apply length_zero_iff in Hn. rewrite Hn, fdiv_zero. reflexivity.
Qed.

Lemma shape_not_above (v_quad_shape : Z -> list xyz -> double)
    (num_nodes : Z) (v0 v1 v2 v3 v4 : xyz) :
  base_normal v0 v1 v3 <> VerdictVector.zero ->
  apex_side v0 v1 v2 v3 v4 <= 0 ->
  v_pyramid_shape v_quad_shape num_nodes [v0; v1; v2; v3; v4] = Some 0.
Proof.
  intros Hn Hside. rewrite shape_unfold. cbv zeta.
  destruct (deq _ 0); [reflexivity|].
  rewrite distance_unfold. cbn [fst snd].
  pose proof (length_pos _ Hn) as Hl.
  rewrite (fdiv_nonzero (apex_side v0 v1 v2 v3 v4)) by lra. cbn [nan_le].
  assert (Hd : dle (apex_side v0 v1 v2 v3 v4 /
                    VerdictVector.length (base_normal v0 v1 v3)) 0 = true).
  { apply dle_true. pose proof (Rinv_0_lt_compat _ Hl). unfold Rdiv. nra. }
  rewrite Hd. reflexivity.
Qed.

(** The value of the metric for an apex on the side of the normal. *)
Lemma shape_above (v_quad_shape : Z -> list xyz -> double)
    (num_nodes : Z) (v0 v1 v2 v3 v4 : xyz) :
  v_quad_shape 4%Z [v0; v1; v2; v3] <> 0 ->
  0 < apex_side v0 v1 v2 v3 v4 ->
  exists cos_angle ratio : double,
    v_pyramid_shape v_quad_shape num_nodes [v0; v1; v2; v3; v4] =
    Some (v_quad_shape 4%Z [v0; v1; v2; v3] * cos_angle * ratio) /\
    0 < cos_angle <= 1 /\ 0 < ratio <= 1.
Proof.
  intros Hs Hside.
  assert (Hn : base_normal v0 v1 v3 <> VerdictVector.zero).
  { apply (dot_nonzero_r (VerdictVector.of_xyz v4 -v base_centroid v0 v1 v2 v3)).
    fold (apex_side v0 v1 v2 v3 v4). lra. }
  pose proof (length_pos _ Hn) as Hl.
  assert (Hpq : 0 < VerdictVector.length
                      (VerdictVector.of_xyz v4 -v base_centroid v0 v1 v2 v3)).
  { apply length_pos. apply (dot_nonzero_l _ (base_normal v0 v1 v3)).
    fold (apex_side v0 v1 v2 v3 v4). lra. }
  pose proof (apex_side_le v0 v1 v2 v3 v4) as Hcs.
  pose proof (largest_edge_pos v0 v1 v2 v3 v4 Hn) as Hlarge.
  pose proof sqrt2_half_pos as Hf.
  rewrite shape_unfold. cbv zeta.
  apply deq_false in Hs. rewrite Hs.
  rewrite distance_unfold. cbn [fst snd].
  rewrite (fdiv_nonzero (apex_side v0 v1 v2 v3 v4)) by lra. cbn [obind nan_le].
  set (d := apex_side v0 v1 v2 v3 v4 /
            VerdictVector.length (base_normal v0 v1 v3)) in *.
  assert (Hd : 0 < d) by (apply div_pos; assumption).
  assert (Hdle : d <= VerdictVector.length
                        (VerdictVector.of_xyz v4 -v base_centroid v0 v1 v2 v3)).
  { apply Rle_trans with (Rabs d); [apply Rle_abs|].
    apply abs_div_le; assumption. }
  rewrite fdiv_nonzero by lra. cbn [nan_le obind].
  set (c := d / VerdictVector.length
                 (VerdictVector.of_xyz v4 -v base_centroid v0 v1 v2 v3)) in *.
  assert (Hc : 0 < c) by (apply div_pos; assumption).
  assert (Hc1 : c <= 1).
  { apply Rle_trans with (Rabs c); [apply Rle_abs|].
    apply abs_div_le; [assumption|]. rewrite Rabs_pos_eq; lra. }
  assert (E1 : dle d 0 = false) by (apply dle_false; exact Hd).
  assert (E2 : dle c 0 = false) by (apply dle_false; exact Hc).
  rewrite E1, E2. cbn [orb].
  set (L := v_largest_pyramid_edge [v0; v1; v2; v3; v4] * (sqrt 2 / 2)) in *.
  assert (HL : 0 < L) by (unfold L; apply Rmult_lt_0_compat; assumption).
  destruct (dlt d L) eqn:El.
  - apply dlt_true in El. rewrite fdiv_nonzero by lra. cbn [obind].
    exists c, (d / L). split; [reflexivity|]. split; [lra|].
    split; [apply div_pos; assumption|].
    apply Rle_trans with (Rabs (d / L)); [apply Rle_abs|].
    apply abs_div_le; [assumption|]. rewrite Rabs_pos_eq; lra.
  - apply dlt_false in El. rewrite fdiv_nonzero by lra. cbn [obind].
    exists c, (L / d). split; [reflexivity|]. split; [lra|].
    split; [apply div_pos; assumption|].
    apply Rle_trans with (Rabs (L / d)); [apply Rle_abs|].
    apply abs_div_le; [assumption|]. rewrite Rabs_pos_eq; lra.
Qed.

(** X25: when the quadrilateral shape of the base is not negative, a value
    the shape metric returns lies between 0 and that base shape: the
    cosine and the height ratio only lower it. *)
Theorem v_pyramid_shape_at_most_base_shape :
  forall (v_quad_shape : Z -> list xyz -> double)
         (num_nodes : Z) (v0 v1 v2 v3 v4 : xyz) (r : double),
    0 <= v_quad_shape 4%Z [v0; v1; v2; v3] ->
    v_pyramid_shape v_quad_shape num_nodes [v0; v1; v2; v3; v4] = Some r ->
    0 <= r <= v_quad_shape 4%Z [v0; v1; v2; v3].
Proof.
  intros Q num_nodes v0 v1 v2 v3 v4 r Hs0 Hr.
  destruct (Req_dec_T (Q 4%Z [v0; v1; v2; v3]) 0) as [Hs|Hs].
  { rewrite (shape_base_zero Q num_nodes v0 v1 v2 v3 v4 Hs) in Hr.
    injection Hr as <-. lra. }
  destruct (Req_dec_T (VerdictVector.length (base_normal v0 v1 v3)) 0) as [Hn|Hn].
  { apply length_zero_iff in Hn.
    rewrite (shape_no_normal Q num_nodes v0 v1 v2 v3 v4 Hs Hn) in Hr. discriminate. }
  assert (Hn' : base_normal v0 v1 v3 <> VerdictVector.zero).
  { intros H. apply Hn, length_zero_iff, H. }
  destruct (Rle_dec (apex_side v0 v1 v2 v3 v4) 0) as [Hside|Hside].
  { rewrite (shape_not_above Q num_nodes v0 v1 v2 v3 v4 Hn' Hside) in Hr.
    injection Hr as <-. lra. }
  destruct (shape_above Q num_nodes v0 v1 v2 v3 v4 Hs ltac:(lra))
    as (c & ratio & Hv & Hc & Hratio).
  rewrite Hv in Hr. injection Hr as <-.
  set (s1 := Q 4%Z [v0; v1; v2; v3]) in *.
  assert (H1 : 0 <= c * ratio <= 1) by nra.
  rewrite Rmult_assoc. nra.
Qed.

(** X26: when the quadrilateral shape of the base is positive, the shape
    metric returns a positive value exactly when the apex is strictly on
    the side of the base normal. *)
Theorem v_pyramid_shape_positive_iff :
  forall (v_quad_shape : Z -> list xyz -> double)
         (num_nodes : Z) (v0 v1 v2 v3 v4 : xyz),
    0 < v_quad_shape 4%Z [v0; v1; v2; v3] ->
    (0 < apex_side v0 v1 v2 v3 v4 <->
     exists r : double,
       v_pyramid_shape v_quad_shape num_nodes [v0; v1; v2; v3; v4] = Some r /\
       0 < r).
Proof.
  intros Q num_nodes v0 v1 v2 v3 v4 Hs. split.
  - intros Hside.
    destruct (shape_above Q num_nodes v0 v1 v2 v3 v4 ltac:(lra) Hside)
      as (c & ratio & Hv & Hc & Hratio).
    eexists. split; [exact Hv|].
    apply Rmult_lt_0_compat; [apply Rmult_lt_0_compat|]; lra.
  - intros (r & Hr & Hpos).
    destruct (Rle_dec (apex_side v0 v1 v2 v3 v4) 0) as [Hside|Hside]; [|lra].
    exfalso.
    destruct (Req_dec_T (VerdictVector.length (base_normal v0 v1 v3)) 0) as [Hn|Hn].
    + apply length_zero_iff in Hn.
      rewrite (shape_no_normal Q num_nodes v0 v1 v2 v3 v4 ltac:(lra) Hn) in Hr.
      discriminate.
    + assert (Hn' : base_normal v0 v1 v3 <> VerdictVector.zero).
      { intros H. apply Hn, length_zero_iff, H. }
      rewrite (shape_not_above Q num_nodes v0 v1 v2 v3 v4 Hn' Hside) in Hr.
      injection Hr as <-. lra.
Qed.

(** X27: a pyramid on which the shape metric is not 0 gets the shape 0
    when the winding of its base is reversed (vertices 1 and 3
    exchanged). *)
Theorem v_pyramid_shape_winding :
  forall (v_quad_shape : Z -> list xyz -> double)
         (num_nodes : Z) (v0 v1 v2 v3 v4 : xyz) (r : double),
    v_pyramid_shape v_quad_shape num_nodes [v0; v1; v2; v3; v4] = Some r ->
    r <> 0 ->
    v_pyramid_shape v_quad_shape num_nodes [v0; v3; v2; v1; v4] = Some 0.
Proof.
  intros Q num_nodes v0 v1 v2 v3 v4 r Hr Hr0.
  destruct (Req_dec_T (Q 4%Z [v0; v1; v2; v3]) 0) as [Hs|Hs].
  { rewrite (shape_base_zero Q num_nodes v0 v1 v2 v3 v4 Hs) in Hr.
    injection Hr as <-. contradiction. }
  destruct (Req_dec_T (VerdictVector.length (base_normal v0 v1 v3)) 0) as [Hn|Hn].
  { apply length_zero_iff in Hn.
    rewrite (shape_no_normal Q num_nodes v0 v1 v2 v3 v4 Hs Hn) in Hr. discriminate. }
  assert (Hn' : base_normal v0 v1 v3 <> VerdictVector.zero).
  { intros H. apply Hn, length_zero_iff, H. }
  destruct (Rle_dec (apex_side v0 v1 v2 v3 v4) 0) as [Hside|Hside].
  { rewrite (shape_not_above Q num_nodes v0 v1 v2 v3 v4 Hn' Hside) in Hr.
    injection Hr as <-. contradiction. }
  apply shape_not_above.
  - rewrite base_normal_reversed. intros H. apply Hn.
    rewrite <- length_neg, H. apply length_zero_iff. reflexivity.
  - rewrite apex_side_reversed. lra.
Qed.

Lemma unit_square_sample_shape :
  sample_quad_shape 4 [(0, 0, 0); (1, 0, 0); (1, 1, 0); (0, 1, 0)] = 1.
Proof.
  unfold sample_quad_shape. cbn [nth]. rewrite unit_square_normal_length.
  assert (E : deq 1 0 = false) by (apply deq_false; lra).
  rewrite E. reflexivity.
Qed.

Lemma scenario_pyramid_side :
  apex_side (0, 0, 0) (1, 0, 0) (1, 1, 0) (0, 1, 0) (/ 2, / 2, / sqrt 2) = / sqrt 2.
Proof.
  unfold apex_side. rewrite unit_square_normal.
  unfold base_centroid. vec_unfold. lra.
Qed.

Lemma inv_sqrt2_pos : 0 < / sqrt 2.
Proof. apply Rinv_0_lt_compat, sqrt_lt_R0. lra. Qed.

(** On the scenario pyramid the sample base shape is 1 and the apex is
    above the base. *)
Lemma v_pyramid_shape_positive_iff_witness :
  exists r : double,
    v_pyramid_shape sample_quad_shape 5 scenario_pyramid = Some r /\ 0 < r.
Proof.
  assert (Hs : 0 < sample_quad_shape 4 [(0, 0, 0); (1, 0, 0); (1, 1, 0); (0, 1, 0)])
    by (rewrite unit_square_sample_shape; lra).
  apply (proj1 (v_pyramid_shape_positive_iff sample_quad_shape 5
                  (0, 0, 0) (1, 0, 0) (1, 1, 0) (0, 1, 0) (/ 2, / 2, / sqrt 2) Hs)).
  rewrite scenario_pyramid_side. exact inv_sqrt2_pos.
Defined.

Lemma scenario_shape_value :
  exists r : double,
    v_pyramid_shape sample_quad_shape 5 scenario_pyramid = Some r /\ 0 < r.
Proof.
  assert (Hs : sample_quad_shape 4 [(0, 0, 0); (1, 0, 0); (1, 1, 0); (0, 1, 0)] <> 0)
    by (rewrite unit_square_sample_shape; lra).
  assert (Hside : 0 < apex_side (0, 0, 0) (1, 0, 0) (1, 1, 0) (0, 1, 0)
                                (/ 2, / 2, / sqrt 2))
    by (rewrite scenario_pyramid_side; exact inv_sqrt2_pos).
  destruct (shape_above sample_quad_shape 5
              (0, 0, 0) (1, 0, 0) (1, 1, 0) (0, 1, 0) (/ 2, / 2, / sqrt 2)
              Hs Hside)
    as (c & ratio & Hv & Hc & Hratio).
  exists (sample_quad_shape 4 [(0, 0, 0); (1, 0, 0); (1, 1, 0); (0, 1, 0)]
          * c * ratio).
  split; [exact Hv|]. rewrite unit_square_sample_shape.
  apply Rmult_lt_0_compat; [apply Rmult_lt_0_compat|]; lra.
Qed.

(** The scenario pyramid: the value of the metric is at most the sample
    base shape, which is 1. *)
Lemma v_pyramid_shape_at_most_base_shape_witness :
  exists r : double,
    v_pyramid_shape sample_quad_shape 5 scenario_pyramid = Some r /\
    0 <= r <= 1.
Proof.
  destruct scenario_shape_value as (r & Hr & _).
  exists r. split; [exact Hr|].
  assert (Hs : 0 <= sample_quad_shape 4 [(0, 0, 0); (1, 0, 0); (1, 1, 0); (0, 1, 0)])
    by (rewrite unit_square_sample_shape; lra).
  pose proof (v_pyramid_shape_at_most_base_shape sample_quad_shape 5
                (0, 0, 0) (1, 0, 0) (1, 1, 0) (0, 1, 0) (/ 2, / 2, / sqrt 2) r
                Hs Hr) as H.
  pose proof unit_square_sample_shape as E. unfold xyz in *.
  rewrite E in H. exact H.
Defined.

(** The scenario pyramid with its base wound the other way. *)
Lemma v_pyramid_shape_winding_witness :
  v_pyramid_shape sample_quad_shape 5
    [(0, 0, 0); (0, 1, 0); (1, 1, 0); (1, 0, 0); (/ 2, / 2, / sqrt 2)] = Some 0.
Proof.
  destruct scenario_shape_value as (r & Hr & Hpos).
  apply (v_pyramid_shape_winding sample_quad_shape 5
           (0, 0, 0) (1, 0, 0) (1, 1, 0) (0, 1, 0) (/ 2, / 2, / sqrt 2) r Hr).
  lra.
Defined.

(** ** V_PyramidMetric.cpp: scaled Jacobian *)

Lemma guard_false_forall (m : double) (ls : list double) :
  existsb (fun l => dlt l m) ls = false -> Forall (fun l => m <= l) ls.
Proof.
  induction ls as [|l ls IH]; intros H; [constructor|].
  cbn in H. apply orb_false_iff in H. destruct H as [Hl Hls].
  constructor; [apply dlt_false, Hl | apply IH, Hls].
Qed.

(** X28: with a positive VERDICT_DBL_MIN and a VERDICT_DBL_MAX that is not
    negative, the scaled Jacobian of every five vertices is a real number
    that does not exceed VERDICT_DBL_MAX. *)
Theorem v_pyramid_scaled_jacobian_at_most_max :
  forall (v_tet_jacobian : Z -> list xyz -> double)
         (VERDICT_DBL_MIN VERDICT_DBL_MAX : double)
         (num_nodes : Z) (v0 v1 v2 v3 v4 : xyz),
    0 < VERDICT_DBL_MIN ->
    0 <= VERDICT_DBL_MAX ->
    exists r : double,
      v_pyramid_scaled_jacobian v_tet_jacobian VERDICT_DBL_MIN VERDICT_DBL_MAX
        num_nodes [v0; v1; v2; v3; v4] = Some r /\
      r <= VERDICT_DBL_MAX.
Proof.
  intros J dmin dmax num_nodes v0 v1 v2 v3 v4 Hmin Hmax.
  destruct (existsb (fun l => dlt l dmin) (pyramid_edge_lengths v0 v1 v2 v3 v4))
    eqn:Hg.
  - exists 0. split; [|exact Hmax].
    rewrite scaled_jacobian_unfold. cbv zeta. rewrite guard_as_existsb, Hg.
    reflexivity.
  - apply guard_false_forall in Hg.
    eexists. split.
    + apply (v_pyramid_scaled_jacobian_capped J dmin dmax num_nodes
               v0 v1 v2 v3 v4 Hmin Hg).
    + apply Rmin_r.
Qed.

Lemma ratio_sign (j d : double) :
  0 < d -> (j / d < 0 <-> j < 0) /\ (0 < j / d <-> 0 < j).
Proof.
  intros Hd. pose proof (Rinv_0_lt_compat _ Hd) as Hi. unfold Rdiv.
  repeat split; intros H; nra.
Qed.

Lemma min4_negative (a b c d : double) :
  min4 a b c d < 0 <-> a < 0 \/ b < 0 \/ c < 0 \/ d < 0.
Proof.
  pose proof (min4_lower a b c d) as (Ha & Hb & Hc & Hd).
  split.
  - intros H. destruct (min4_attained a b c d) as [E|[E|[E|E]]]; rewrite E in H;
      auto.
  - intros [H|[H|[H|H]]]; lra.
Qed.

Lemma min4_positive (a b c d : double) :
  0 < min4 a b c d <-> 0 < a /\ 0 < b /\ 0 < c /\ 0 < d.
Proof.
  pose proof (min4_lower a b c d) as (Ha & Hb & Hc & Hd).
  split.
  - intros H. repeat split; lra.
  - intros (H1 & H2 & H3 & H4).
    destruct (min4_attained a b c d) as [E|[E|[E|E]]]; rewrite E; assumption.
Qed.

(** X29: when the eight edge lengths pass the guard, the scaled Jacobian is
    negative exactly when one of the four tetrahedron Jacobians is
    negative, and positive exactly when all four are positive
    (VERDICT_DBL_MIN and VERDICT_DBL_MAX positive). *)
Theorem v_pyramid_scaled_jacobian_sign :
  forall (v_tet_jacobian : Z -> list xyz -> double)
         (VERDICT_DBL_MIN VERDICT_DBL_MAX : double)
         (num_nodes : Z) (v0 v1 v2 v3 v4 : xyz),
    let j1 := v_tet_jacobian 4%Z [v0; v1; v2; v4] in
    let j2 := v_tet_jacobian 4%Z [v0; v2; v3; v4] in
    let j3 := v_tet_jacobian 4%Z [v0; v1; v3; v4] in
    let j4 := v_tet_jacobian 4%Z [v1; v2; v3; v4] in
    0 < VERDICT_DBL_MIN ->
    0 < VERDICT_DBL_MAX ->
    Forall (fun l => VERDICT_DBL_MIN <= l) (pyramid_edge_lengths v0 v1 v2 v3 v4) ->
    exists r : double,
      v_pyramid_scaled_jacobian v_tet_jacobian VERDICT_DBL_MIN VERDICT_DBL_MAX
        num_nodes [v0; v1; v2; v3; v4] = Some r /\
      (r < 0 <-> j1 < 0 \/ j2 < 0 \/ j3 < 0 \/ j4 < 0) /\
      (0 < r <-> 0 < j1 /\ 0 < j2 /\ 0 < j3 /\ 0 < j4).
Proof.
  intros J dmin dmax num_nodes v0 v1 v2 v3 v4 j1 j2 j3 j4 Hmin Hmax Hall.
  eexists. split.
  { apply (v_pyramid_scaled_jacobian_capped J dmin dmax num_nodes
             v0 v1 v2 v3 v4 Hmin Hall). }
  destruct (divisors_pos dmin v0 v1 v2 v3 v4 Hmin Hall) as (D1 & D2 & D3 & D4).
  unfold corner_ratio. fold j1 j2 j3 j4.
  destruct (ratio_sign j1 _ D1) as [N1 P1].
  destruct (ratio_sign j2 _ D2) as [N2 P2].
  destruct (ratio_sign j3 _ D3) as [N3 P3].
  destruct (ratio_sign j4 _ D4) as [N4 P4].
  rewrite <- N1, <- N2, <- N3, <- N4, <- P1, <- P2, <- P3, <- P4.
  rewrite <- min4_negative, <- min4_positive.
  match goal with |- context [Rmin ?m dmax] => generalize m end.
  intros m. unfold Rmin. destruct (Rle_dec m dmax); split; split; intros; lra.
Qed.

(** The corner pyramid, with the sample Jacobian and bounds. *)
Lemma v_pyramid_scaled_jacobian_at_most_max_witness :
  exists r : double,
    v_pyramid_scaled_jacobian sample_tet_jacobian sample_dbl_min sample_dbl_max
      5 corner_pyramid = Some r /\ r <= sample_dbl_max.
Proof.
  apply (v_pyramid_scaled_jacobian_at_most_max
           sample_tet_jacobian sample_dbl_min sample_dbl_max 5
           (0, 0, 0) (1, 0, 0) (1, 1, 0) (0, 1, 0) (0, 0, 1)).
  - exact sample_dbl_min_pos.
  - pose proof sample_dbl_max_ge_2. lra.
Defined.

Lemma v_pyramid_scaled_jacobian_sign_witness :
  exists r : double,
    v_pyramid_scaled_jacobian sample_tet_jacobian sample_dbl_min sample_dbl_max
      5 corner_pyramid = Some r /\
    (r < 0 <->
     sample_tet_jacobian 4 [(0, 0, 0); (1, 0, 0); (1, 1, 0); (0, 0, 1)] < 0 \/
     sample_tet_jacobian 4 [(0, 0, 0); (1, 1, 0); (0, 1, 0); (0, 0, 1)] < 0 \/
     sample_tet_jacobian 4 [(0, 0, 0); (1, 0, 0); (0, 1, 0); (0, 0, 1)] < 0 \/
     sample_tet_jacobian 4 [(1, 0, 0); (1, 1, 0); (0, 1, 0); (0, 0, 1)] < 0) /\
    (0 < r <->
     0 < sample_tet_jacobian 4 [(0, 0, 0); (1, 0, 0); (1, 1, 0); (0, 0, 1)] /\
     0 < sample_tet_jacobian 4 [(0, 0, 0); (1, 1, 0); (0, 1, 0); (0, 0, 1)] /\
     0 < sample_tet_jacobian 4 [(0, 0, 0); (1, 0, 0); (0, 1, 0); (0, 0, 1)] /\
     0 < sample_tet_jacobian 4 [(1, 0, 0); (1, 1, 0); (0, 1, 0); (0, 0, 1)]).
Proof.
  apply (v_pyramid_scaled_jacobian_sign
           sample_tet_jacobian sample_dbl_min sample_dbl_max 5
           (0, 0, 0) (1, 0, 0) (1, 1, 0) (0, 1, 0) (0, 0, 1)).
  - exact sample_dbl_min_pos.
  - pose proof sample_dbl_max_ge_2. lra.
  - exact corner_pyramid_edges_long.
Defined.

(** ** The shape metric on binary64 numbers: overflow *)

(** On the huge pyramid the products of two coordinates overflow: the base
    normal has an infinite component, so the distance is inf/inf, and the
    distance and the cosine the helper returns are both NaN. *)
Lemma huge_pyramid_distance_nan :
  PrimFloat.is_nan (fst (IEEE.v_distance_point_to_pyramid_base 5 IEEE.huge_pyramid))
  = true /\
  PrimFloat.is_nan (snd (IEEE.v_distance_point_to_pyramid_base 5 IEEE.huge_pyramid))
  = true.
Proof. split; vm_compute; reflexivity. Qed.

(** C3: on binary64 numbers the shape metric of the huge pyramid, whose
    coordinates are all finite, is NaN and so not a finite number, with a
    base of quadrilateral shape 1 (a NaN compares false in both tests of
    the metric, and the product with a NaN is NaN for any base shape that
    is not 0). *)
Lemma v_pyramid_shape_huge_pyramid_nan :
  forallb (fun p => IEEE.finite (IEEE.comp p 0) && IEEE.finite (IEEE.comp p 1)
                    && IEEE.finite (IEEE.comp p 2)) IEEE.huge_pyramid = true /\
  PrimFloat.is_nan
    (IEEE.v_pyramid_shape IEEE.square_quad_shape 5 IEEE.huge_pyramid) = true /\
  IEEE.finite
    (IEEE.v_pyramid_shape IEEE.square_quad_shape 5 IEEE.huge_pyramid) = false.
Proof. repeat split; vm_compute; reflexivity. Qed.
